(** * eye-vto: the face-tracking overlay cycle of [src/VirtualTryOn.js]

    A shallow embedding of [detectAndPositionGlasses] and of the interval
    that drives it, together with the properties the specification states
    about them.

    Conventions of the embedding.
    - JavaScript numbers are idealised as real numbers ([R]): the
      development is about the geometry of the formulas, not about IEEE-754
      rounding, NaN or signed zeros.
    - The async function is a term of a small free monad [Prog]: synchronous
      effects are [Event]s answered from the [World], the single [await] is a
      constructor of its own that suspends the run and hands back the
      continuation.
    - THREE objects live in a heap and the React state holds a reference
      (a location) to the loaded glasses object, as in the source. *)

From Stdlib Require Import Reals Lra ZArith.
From stdpp Require Import base option list gmap.

Local Open Scope R_scope.

(** ** The JavaScript [Math] functions the source calls *)

Module Math.

(** [Math.sqrt]; the source only takes the root of a sum of squares. *)
Definition sqrt (x : R) : R := R_sqrt.sqrt x.

(** [Math.pow(x, n)] at a non-negative integer exponent (the source only
    calls it with the literal [2]). *)
Definition pow (x : R) (n : nat) : R := x ^ n.
#[global] Arguments pow : simpl never.

(** [Math.atan2(y, x)]: the angle of the point [(x, y)], in (-PI, PI]. *)
Definition atan2 (y x : R) : R :=
  if Rlt_dec 0 x then atan (y / x)
  else if Rlt_dec x 0 then
    (if Rle_dec 0 y then atan (y / x) + PI else atan (y / x) - PI)
  else if Rlt_dec 0 y then PI / 2
  else if Rlt_dec y 0 then - (PI / 2)
  else 0.

End Math.

(** ** The part of three.js the source touches *)

Module THREE.

Record Vector2 := mkVector2 { x2 : R; y2 : R }.

Record Vector3 := mkVector3 { x : R; y : R; z : R }.

(** [Vector3.set(x, y, z)]. *)
Definition set (_ : Vector3) (nx ny nz : R) : Vector3 := mkVector3 nx ny nz.

(** The transform fields of an [Object3D]; [rotation] holds the three
    Euler angles in radians. *)
Record Object3D := mkObject3D {
  position : Vector3;
  scale : Vector3;
  rotation : Vector3
}.

Definition with_position (f : Vector3 -> Vector3) (o : Object3D) : Object3D :=
  mkObject3D (f (position o)) (scale o) (rotation o).
Definition with_scale (f : Vector3 -> Vector3) (o : Object3D) : Object3D :=
  mkObject3D (position o) (f (scale o)) (rotation o).
Definition with_rotation (f : Vector3 -> Vector3) (o : Object3D) : Object3D :=
  mkObject3D (position o) (scale o) (f (rotation o)).

Definition set_x (v : R) (p : Vector3) : Vector3 := mkVector3 v (y p) (z p).
Definition set_y (v : R) (p : Vector3) : Vector3 := mkVector3 (x p) v (z p).
Definition set_z (v : R) (p : Vector3) : Vector3 := mkVector3 (x p) (y p) v.

End THREE.

(** ** Data of the detection library and of the DOM *)

(** One entry of [scaledMesh]: the array [[x, y, z]] in video pixels. *)
Record Keypoint := mkKeypoint { k0 : R; k1 : R; k2 : R }.

(** One element of the array [estimateFaces] resolves to. *)
Record Face := mkFace { scaledMesh : list Keypoint }.

(** The loaded face-landmarks model: an opaque handle. *)
Inductive Model := FaceMesh.

(** The [Webcam] component instance that [webcamRef.current] points to; its
    [video] property is the <video> element of the page. *)
Inductive Webcam := WebcamInstance.

(** The properties of the <video> element the source reads. *)
Record HTMLVideoElement := mkVideo {
  readyState : Z;
  videoWidth : R;
  videoHeight : R
}.

(** References to THREE objects. *)
Abbreviation loc := nat.

(** Everything the cycle reads or writes. *)
Record World := mkWorld {
  webcamRef_current : option Webcam;
  video : HTMLVideoElement;
  isLoading : bool;
  heap : gmap loc THREE.Object3D
}.

Definition set_isLoading (b : bool) (w : World) : World :=
  mkWorld (webcamRef_current w) (video w) b (heap w).

(** A write through a reference to a THREE object. *)
Definition update (o : loc) (f : THREE.Object3D -> THREE.Object3D) (w : World) : World :=
  mkWorld (webcamRef_current w) (video w) (isLoading w) (alter f o (heap w)).

(** ** Programs *)

Inductive JSError := TypeError.

(** The synchronous effects of [detectAndPositionGlasses]. *)
Inductive Event : Type -> Type :=
| ReadWebcamRef : Event (option Webcam)         (* webcamRef.current *)
| ReadReadyState : Event Z                      (* video.readyState *)
| ReadVideoWidth : Event R                      (* video.videoWidth *)
| ReadVideoHeight : Event R                     (* video.videoHeight *)
| SetIsLoading (b : bool) : Event unit          (* setIsLoading(b) *)
| SetPositionX (o : loc) (v : R) : Event unit   (* o.position.x = v *)
| SetPositionY (o : loc) (v : R) : Event unit
| SetPositionZ (o : loc) (v : R) : Event unit
| ScaleSet (o : loc) (sx sy sz : R) : Event unit (* o.scale.set(sx, sy, sz) *)
| SetRotationX (o : loc) (v : R) : Event unit   (* o.rotation.x = v *)
| SetRotationY (o : loc) (v : R) : Event unit
| SetRotationZ (o : loc) (v : R) : Event unit.

Inductive Prog (A : Type) : Type :=
| Ret (a : A)
| Throw (e : JSError)
| Do {X : Type} (e : Event X) (k : X -> Prog A)
| Await (m : Model) (k : list Face -> Prog A).  (* await m.estimateFaces({ input: video }) *)

Arguments Ret {A} a.
Arguments Throw {A} e.
Arguments Do {A X} e k.
Arguments Await {A} m k.

Fixpoint bind {A B : Type} (p : Prog A) (f : A -> Prog B) : Prog B :=
  match p with
  | Ret a => f a
  | Throw e => Throw e
  | Do e k => Do e (fun r => bind (k r) f)
  | Await m k => Await m (fun r => bind (k r) f)
  end.

#[export] Instance Prog_ret : MRet Prog := @Ret.
#[export] Instance Prog_bind : MBind Prog := fun A B f p => bind p f.

Definition do {X : Type} (e : Event X) : Prog X := Do e Ret.
Definition await_estimateFaces (m : Model) : Prog (list Face) := Await m Ret.

(** How the world answers a synchronous effect. *)
Definition handle {X : Type} (e : Event X) (w : World) : X * World :=
  match e in Event T return T * World with
  | ReadWebcamRef => (webcamRef_current w, w)
  | ReadReadyState => (readyState (video w), w)
  | ReadVideoWidth => (videoWidth (video w), w)
  | ReadVideoHeight => (videoHeight (video w), w)
  | SetIsLoading b => (tt, set_isLoading b w)
  | SetPositionX o v => (tt, update o (THREE.with_position (THREE.set_x v)) w)
  | SetPositionY o v => (tt, update o (THREE.with_position (THREE.set_y v)) w)
  | SetPositionZ o v => (tt, update o (THREE.with_position (THREE.set_z v)) w)
  | ScaleSet o sx sy sz =>
      (tt, update o (THREE.with_scale (fun s => THREE.set s sx sy sz)) w)
  | SetRotationX o v => (tt, update o (THREE.with_rotation (THREE.set_x v)) w)
  | SetRotationY o v => (tt, update o (THREE.with_rotation (THREE.set_y v)) w)
  | SetRotationZ o v => (tt, update o (THREE.with_rotation (THREE.set_z v)) w)
  end.

(** The result of running an async function body until it returns, throws
    or reaches its [await]. *)
Inductive Outcome :=
| Returned (w : World)
| Threw (e : JSError) (w : World)
| Awaiting (w : World) (m : Model) (k : list Face -> Prog unit).

Fixpoint run (p : Prog unit) (w : World) : Outcome :=
  match p with
  | Ret _ => Returned w
  | Throw e => Threw e w
  | Do e k => let '(r, w') := handle e w in run (k r) w'
  | Await m k => Awaiting w m k
  end.

(** ** [detectAndPositionGlasses] *)

(** [p[0]] and [p[1]] on an element of [scaledMesh]: reading a property of
    [undefined] (an index past the end of the array) throws. *)
Definition elem0 (p : option Keypoint) : Prog R :=
  match p with Some k => Ret (k0 k) | None => Throw TypeError end.
Definition elem1 (p : option Keypoint) : Prog R :=
  match p with Some k => Ret (k1 k) | None => Throw TypeError end.

(** Lines 90-146: the body that runs once the [await] has resolved to
    [faceEstimates]. *)
Definition onFaceEstimates (glassesMesh : loc) (faceEstimates : list Face) : Prog unit :=
  match faceEstimates with
  | [] => Ret tt                                  (* faceEstimates.length > 0 fails *)
  | face0 :: _ =>
    do (SetIsLoading false) ;;
    (* Face mesh keypoints *)
    let keypoints := scaledMesh face0 in
    let leftEye := keypoints !! 130%nat in
    let rightEye := keypoints !! 359%nat in
    let noseTip := keypoints !! 70%nat in
    let eyeCenter := keypoints !! 168%nat in
    (* Eye distance for glasses scaling *)
    rightEye0 ← elem0 rightEye; leftEye0 ← elem0 leftEye;
    rightEye1 ← elem1 rightEye; leftEye1 ← elem1 leftEye;
    let eyeDistance :=
      Math.sqrt (Math.pow (rightEye0 - leftEye0) 2 + Math.pow (rightEye1 - leftEye1) 2) in
    let scaleMultiplier := eyeDistance / 250 in
    (* Glasses scaling and offset values *)
    let scaleX := 0.01 in
    let scaleY := 0.01 in
    let offsetX := 0.0 in
    let offsetY := -0.1 in
    (* Glasses positioning *)
    eyeCenter0 ← elem0 eyeCenter; width ← do ReadVideoWidth;
    do (SetPositionX glassesMesh ((eyeCenter0 - width / 2) * scaleX + offsetX)) ;;
    eyeCenter1 ← elem1 eyeCenter; height ← do ReadVideoHeight;
    do (SetPositionY glassesMesh ((eyeCenter1 - height / 2) * - scaleY + offsetY)) ;;
    do (ScaleSet glassesMesh scaleMultiplier scaleMultiplier scaleMultiplier) ;;
    do (SetPositionZ glassesMesh 1) ;;
    (* Calculate rotation angles based on facial keypoints *)
    rightEye0 ← elem0 rightEye; leftEye0 ← elem0 leftEye;
    rightEye1 ← elem1 rightEye; leftEye1 ← elem1 leftEye;
    let eyeLine := THREE.mkVector2 (rightEye0 - leftEye0) (rightEye1 - leftEye1) in
    let angleY := - Math.atan2 (THREE.y2 eyeLine) (THREE.x2 eyeLine) in
    eyeCenter0 ← elem0 eyeCenter; noseTip0 ← elem0 noseTip;
    eyeCenter1 ← elem1 eyeCenter; noseTip1 ← elem1 noseTip;
    let vectorNoseToEyeCenter :=
      THREE.mkVector2 (eyeCenter0 - noseTip0) (eyeCenter1 - noseTip1) in
    let angleX :=
      Math.atan2 (THREE.y2 vectorNoseToEyeCenter) (THREE.x2 vectorNoseToEyeCenter) in
    let angleZ := - Math.atan2 (THREE.y2 eyeLine) (THREE.x2 eyeLine) in
    (* Apply rotation to the glasses *)
    do (SetRotationX glassesMesh angleX) ;;
    do (SetRotationY glassesMesh angleY) ;;
    do (SetRotationZ glassesMesh angleZ)
  end.

(** Lines 84-147. [model] and [glassesMesh] are the React state values the
    effect closure captured; [webcamRef.current] is read at call time. *)
Definition detectAndPositionGlasses
    (model : option Model) (glassesMesh : option loc) : Prog unit :=
  current ← do ReadWebcamRef;
  match current, model, glassesMesh with
  | Some _, Some model, Some glassesMesh =>
      readyState ← do ReadReadyState;
      if negb (readyState =? 4)%Z then Ret tt else
      faceEstimates ← await_estimateFaces model;
      onFaceEstimates glassesMesh faceEstimates
  | _, _, _ => Ret tt   (* !webcamRef.current || !model || !glassesMesh *)
  end.

(** ** The interval that drives the cycle (lines 149-155) *)

(** The state values the effect closure captured: the dependency array
    [[model, glassesMesh]] of the effect. *)
Record Closure := mkClosure {
  closure_model : option Model;
  closure_glassesMesh : option loc
}.

Record Page := mkPage {
  world : World;
  (** the live [setInterval] timer, with the closure of the effect run that
      created it; [None] once [clearInterval] ran *)
  interval : option Closure;
  (** the [estimateFaces] calls in the order they were issued, each with the
      suspended rest of its cycle; [None] once the call has settled *)
  pending : list (option (list Face -> Prog unit))
}.

Inductive Action :=
| Effect (c : Closure)      (* the effect runs: previous cleanup, then setInterval *)
| Cleanup                   (* the effect's cleanup: clearInterval(intervalId) *)
| Tick                      (* the timer fires: detectAndPositionGlasses() *)
| Resolve (i : nat) (faceEstimates : list Face)  (* call i fulfils *)
| Reject (i : nat)          (* call i rejects: its async function stops there *)
| Dom (r : option Webcam) (v : HTMLVideoElement). (* the ref and the video change *)

Definition world_after (o : Outcome) : World :=
  match o with
  | Returned w => w
  | Threw _ w => w
  | Awaiting w _ _ => w
  end.

Definition suspended (o : Outcome) : list (option (list Face -> Prog unit)) :=
  match o with
  | Awaiting _ _ k => [Some k]
  | _ => []
  end.

Definition step (s : Page) (a : Action) : Page :=
  match a with
  | Effect c => mkPage (world s) (Some c) (pending s)
  | Cleanup => mkPage (world s) None (pending s)
  | Tick =>
      match interval s with
      | None => s
      | Some c =>
          let o := run (detectAndPositionGlasses (closure_model c) (closure_glassesMesh c))
                       (world s) in
          mkPage (world_after o) (interval s) (pending s ++ suspended o)
      end
  | Resolve i faceEstimates =>
      match pending s !! i with
      | Some (Some k) =>
          let o := run (k faceEstimates) (world s) in
          mkPage (world_after o) (interval s) (<[i := None]> (pending s) ++ suspended o)
      | _ => s
      end
  | Reject i => mkPage (world s) (interval s) (<[i := None]> (pending s))
  | Dom r v =>
      mkPage (mkWorld r v (isLoading (world s)) (heap (world s))) (interval s) (pending s)
  end.

Definition exec (s : Page) (l : list Action) : Page := foldl step s l.

(** The page right after mount, before any effect has run. *)
Definition mounted (w : World) : Page := mkPage w None [].

Inductive reachable : Page -> Prop :=
| reach_mounted w : reachable (mounted w)
| reach_step s a : reachable s -> reachable (step s a).

(** Every suspended cycle on a page is the rest of a
    [detectAndPositionGlasses] call. *)
Definition from_cycle (p : option (list Face -> Prog unit)) : Prop :=
  match p with
  | None => True
  | Some k => exists g, forall faceEstimates, k faceEstimates = onFaceEstimates g faceEstimates
  end.

(** The only action that starts a timer. *)
Definition starts_interval (a : Action) : bool :=
  match a with
  | Effect _ => true
  | _ => false
  end.

(** ** A face and a page to evaluate the definitions on

    The scenario of the specification: eyes at (100,200) and (300,200),
    nose at (200,260), eye centre at (200,200), an 800x800 frame. *)

Definition origin : Keypoint := mkKeypoint 0 0 0.

Definition scenario_face : Face :=
  mkFace (replicate 70 origin ++ [mkKeypoint 200 260 0] ++
          replicate 59 origin ++ [mkKeypoint 100 200 0] ++
          replicate 37 origin ++ [mkKeypoint 200 200 0] ++
          replicate 190 origin ++ [mkKeypoint 300 200 0]).

(** The glasses as the loader callback leaves them: [scale.set(0.05, 0.05, 0.05)]. *)
Definition loaded_glasses : THREE.Object3D :=
  THREE.mkObject3D (THREE.mkVector3 0 0 0) (THREE.mkVector3 0.05 0.05 0.05)
                   (THREE.mkVector3 0 0 0).

Definition scenario_world : World :=
  mkWorld (Some WebcamInstance) (mkVideo 4 800 800) true {[ 0%nat := loaded_glasses ]}.

(** A second detection result: the same four landmarks, everything else
    different (468 keypoints, none at the origin). *)
Definition elsewhere : Keypoint := mkKeypoint 7 9 (-3).

Definition other_face : Face :=
  mkFace (replicate 70 elsewhere ++ [mkKeypoint 200 260 0] ++
          replicate 59 elsewhere ++ [mkKeypoint 100 200 0] ++
          replicate 37 elsewhere ++ [mkKeypoint 200 200 0] ++
          replicate 190 elsewhere ++ [mkKeypoint 300 200 0] ++
          replicate 108 elsewhere).

Definition other_world : World :=
  mkWorld (Some WebcamInstance) (mkVideo 4 800 800) false
    {[ 0%nat := THREE.mkObject3D (THREE.mkVector3 1 2 3) (THREE.mkVector3 4 5 6)
                                 (THREE.mkVector3 7 8 9) ]}.

(** The scenario page with the video still buffering ([readyState] 2). *)
Definition buffering_page : Page :=
  mkPage (mkWorld (Some WebcamInstance) (mkVideo 2 800 800) true
            {[ 0%nat := loaded_glasses ]})
         (Some (mkClosure (Some FaceMesh) (Some 0%nat))) [].

Definition ready : Closure := mkClosure (Some FaceMesh) (Some 0%nat).

(** ** Moving and resizing a face in the frame *)



(** A detection result too short to hold landmark 359. *)
Definition short_face : Face := mkFace (replicate 200 (mkKeypoint 10 20 0)).

(** ** The component: its state, [loadResources] and the re-run of the effect

    Lines 11-15 (refs and state), 17-81 ([loadResources], run once at
    mount) and the dependency array of line 155.  The browser, TensorFlow
    and three.js are the environment: each of their asynchronous operations
    completes by an [Occurrence].  The component stays mounted. *)

Inductive MediaStream := CameraStream.

(** The canvas element: its layout size, and whether the browser gives it
    a WebGL context ([new THREE.WebGLRenderer] throws when it does not). *)
Record Canvas := mkCanvas { clientWidth : R; clientHeight : R; webgl_available : bool }.

(** [new THREE.PerspectiveCamera(fov, aspect, near, far)] and its position. *)
Record PerspectiveCamera := mkCamera {
  fov : R; aspect : R; near : R; far : R;
  camera_position : THREE.Vector3
}.

(** What "Three.js Setup" creates: the scene (its children), the camera and
    the renderer (its size). *)
Record Three := mkThree {
  scene_children : list loc;
  camera : PerspectiveCamera;
  renderer_size : R * R
}.

(** [scene.add(o)]. *)
Definition scene_add (o : loc) (t : Three) : Three :=
  mkThree (scene_children t ++ [o]) (camera t) (renderer_size t).

(** The two [console.error] calls. *)
Inductive Report :=
| InitializationError      (* line 75 *)
| GltfLoadError.           (* line 70 *)

(** Where [loadResources] stands: the operation it waits for. *)
Inductive Stage :=
| AwaitGetUserMedia        (* line 21 *)
| AwaitSetBackend          (* line 29 *)
| AwaitLoad                (* line 30 *)
| LoaderLoading            (* line 59: loader.load(...) called, callbacks registered *)
| LoadSettled.             (* a callback ran, or the catch block did *)

Record Component := mkComponent {
  page : Page;
  model_state : option Model;             (* useState(null), line 13 *)
  glassesMesh_state : option loc;         (* useState(null), line 14 *)
  canvasRef_current : option Canvas;      (* canvasRef.current *)
  srcObject : option MediaStream;         (* webcamRef.current.srcObject *)
  three : option Three;
  console_error : list Report;
  loading : Stage
}.

Inductive Occurrence :=
| GetUserMediaFulfilled (stream : MediaStream)
| GetUserMediaRejected
| SetBackendFulfilled
| SetBackendRejected
| LoadFulfilled (loadedModel : Model)
| LoadRejected
| GltfLoaded (gltf_scene : THREE.Object3D)   (* the onLoad callback, with gltf.scene *)
| GltfFailed                                 (* the onError callback *)
| TimerFired
| EstimateFacesFulfilled (i : nat) (faceEstimates : list Face)
| EstimateFacesRejected (i : nat)
| DomChanged (r : option Webcam) (v : HTMLVideoElement).

Definition on_page (f : Page -> Page) (c : Component) : Component :=
  mkComponent (f (page c)) (model_state c) (glassesMesh_state c) (canvasRef_current c)
              (srcObject c) (three c) (console_error c) (loading c).

Definition on_world (f : World -> World) (s : Page) : Page :=
  mkPage (f (world s)) (interval s) (pending s).

Definition goto (st : Stage) (c : Component) : Component :=
  mkComponent (page c) (model_state c) (glassesMesh_state c) (canvasRef_current c)
              (srcObject c) (three c) (console_error c) st.

(** [setIsLoading(b)] from outside the cycle. *)
Definition setIsLoading (b : bool) (c : Component) : Component :=
  on_page (on_world (set_isLoading b)) c.

(** [console.error(...)]. *)
Definition report (r : Report) (c : Component) : Component :=
  mkComponent (page c) (model_state c) (glassesMesh_state c) (canvasRef_current c)
              (srcObject c) (three c) (console_error c ++ [r]) (loading c).

(** A change of [model] or [glassesMesh] re-renders the component and
    re-runs the second effect: the cleanup of the previous run, then a new
    interval whose closure holds the new values. *)
Definition rerun_effect (c : Component) : Component :=
  on_page (fun s => step s (Effect (mkClosure (model_state c) (glassesMesh_state c)))) c.

Definition setModel (m : Model) (c : Component) : Component :=
  rerun_effect
    (mkComponent (page c) (Some m) (glassesMesh_state c) (canvasRef_current c)
                 (srcObject c) (three c) (console_error c) (loading c)).

Definition setGlassesMesh (g : loc) (c : Component) : Component :=
  rerun_effect
    (mkComponent (page c) (model_state c) (Some g) (canvasRef_current c)
                 (srcObject c) (three c) (console_error c) (loading c)).

(** The catch block of [loadResources], lines 74-77. *)
Definition catch_block (c : Component) : Component :=
  goto LoadSettled (setIsLoading false (report InitializationError c)).

(** Lines 39-73, after [setModel(loadedModel)]: the three.js setup and the
    call of the loader.  Reading [clientWidth] of a null [canvasRef.current]
    throws inside the try block, and so does the renderer constructor
    without a WebGL context. *)
Definition threeSetup (c : Component) : Component :=
  match canvasRef_current c with
  | None => catch_block c
  | Some canvas =>
      let width := clientWidth canvas in
      let height := clientHeight canvas in
      let camera := mkCamera 75 (width / height) 0.1 1000 (THREE.mkVector3 0 0 5) in
      if webgl_available canvas then
        mkComponent (page c) (model_state c) (glassesMesh_state c) (canvasRef_current c)
                    (srcObject c) (Some (mkThree [] camera (width, height)))
                    (console_error c) LoaderLoading
      else catch_block c
  end.

(** The onLoad callback, lines 61-67.  [gltf.scene] is a new object. *)
Definition onLoad (gltf_scene : THREE.Object3D) (c : Component) : Component :=
  let glasses := fresh (dom (heap (world (page c)))) in
  let scaled := THREE.with_scale (fun s => THREE.set s 0.05 0.05 0.05) gltf_scene in
  let c1 :=
    mkComponent
      (on_world (fun w => mkWorld (webcamRef_current w) (video w) (isLoading w)
                                  (<[glasses := scaled]> (heap w))) (page c))
      (model_state c) (glassesMesh_state c) (canvasRef_current c) (srcObject c)
      (scene_add glasses <$> three c) (console_error c) (loading c) in
  goto LoadSettled (setIsLoading false (setGlassesMesh glasses c1)).

(** The onError callback, lines 69-72. *)
Definition onError (c : Component) : Component :=
  goto LoadSettled (setIsLoading false (report GltfLoadError c)).

Definition occur (c : Component) (e : Occurrence) : Component :=
  match e, loading c with
  | GetUserMediaFulfilled stream, AwaitGetUserMedia =>
      let c1 :=
        match webcamRef_current (world (page c)) with
        | Some _ =>
            mkComponent (page c) (model_state c) (glassesMesh_state c)
                        (canvasRef_current c) (Some stream) (three c)
                        (console_error c) (loading c)
        | None => c
        end in
      goto AwaitSetBackend c1
  | GetUserMediaRejected, AwaitGetUserMedia => catch_block c
  | SetBackendFulfilled, AwaitSetBackend => goto AwaitLoad c
  | SetBackendRejected, AwaitSetBackend => catch_block c
  | LoadFulfilled loadedModel, AwaitLoad => threeSetup (setModel loadedModel c)
  | LoadRejected, AwaitLoad => catch_block c
  | GltfLoaded gltf_scene, LoaderLoading => onLoad gltf_scene c
  | GltfFailed, LoaderLoading => onError c
  | TimerFired, _ => on_page (fun s => step s Tick) c
  | EstimateFacesFulfilled i faceEstimates, _ =>
      on_page (fun s => step s (Resolve i faceEstimates)) c
  | EstimateFacesRejected i, _ => on_page (fun s => step s (Reject i)) c
  | DomChanged r v, _ => on_page (fun s => step s (Dom r v)) c
  | _, _ => c      (* no such completion is outstanding *)
  end.

Definition occur_all (c : Component) (l : list Occurrence) : Component := foldl occur c l.

(** The component after its first render: both effects have run, the
    interval holds the initial state values and [loadResources] waits for
    the camera. *)
Definition mount (r : option Webcam) (v : HTMLVideoElement) (canvas : option Canvas)
    (h : gmap loc THREE.Object3D) : Component :=
  mkComponent (step (mounted (mkWorld r v true h)) (Effect (mkClosure None None)))
              None None canvas None None [] AwaitGetUserMedia.

Inductive running : Component -> Prop :=
| running_mount r v canvas h : running (mount r v canvas h)
| running_occur c e : running c -> running (occur c e).

(** A suspended cycle that will write the glasses [g]. *)
Definition bound_to (g : loc) (p : option (list Face -> Prog unit)) : Prop :=
  match p with
  | None => True
  | Some k => k = onFaceEstimates g
  end.

(** What holds of the component at every moment. *)
Definition consistent (c : Component) : Prop :=
  interval (page c) = Some (mkClosure (model_state c) (glassesMesh_state c)) /\
  match glassesMesh_state c with
  | None => pending (page c) = []
  | Some g =>
      is_Some (heap (world (page c)) !! g) /\ is_Some (model_state c) /\
      Forall (bound_to g) (pending (page c)) /\
      scene_children <$> three c = Some [g] /\
      console_error c = [] /\ loading c = LoadSettled
  end /\
  match loading c with
  | AwaitGetUserMedia | AwaitSetBackend | AwaitLoad =>
      model_state c = None /\ glassesMesh_state c = None /\ console_error c = []
  | LoaderLoading =>
      is_Some (model_state c) /\ glassesMesh_state c = None /\ console_error c = [] /\
      scene_children <$> three c = Some []
  | LoadSettled =>
      isLoading (world (page c)) = false /\
      (glassesMesh_state c = None -> exists r, console_error c = [r])
  end.

(** * Properties *)

(** ** Facts about the embedding *)

(** On an array that has its four landmarks the body runs to its end and
    overwrites every transform field of the glasses. *)
Lemma onFaceEstimates_applies (w : World) (g : loc) (o : THREE.Object3D)
    (face : Face) (rest : list Face) (le re nt ec : Keypoint) :
  heap w !! g = Some o ->
  scaledMesh face !! 130%nat = Some le ->
  scaledMesh face !! 359%nat = Some re ->
  scaledMesh face !! 70%nat = Some nt ->
  scaledMesh face !! 168%nat = Some ec ->
  run (onFaceEstimates g (face :: rest)) w =
  Returned
    (mkWorld (webcamRef_current w) (video w) false
       (<[g := THREE.mkObject3D
           (THREE.mkVector3
              ((k0 ec - videoWidth (video w) / 2) * 0.01 + 0.0)
              ((k1 ec - videoHeight (video w) / 2) * - (0.01) + -0.1)
              1)
           (let s := Math.sqrt (Math.pow (k0 re - k0 le) 2 +
                                Math.pow (k1 re - k1 le) 2) / 250 in
            THREE.mkVector3 s s s)
           (THREE.mkVector3
              (Math.atan2 (k1 ec - k1 nt) (k0 ec - k0 nt))
              (- Math.atan2 (k1 re - k1 le) (k0 re - k0 le))
              (- Math.atan2 (k1 re - k1 le) (k0 re - k0 le)))]> (heap w))).
Proof.
  intros Hg Hle Hre Hnt Hec. unfold onFaceEstimates.
  rewrite Hle, Hre, Hnt, Hec. cbn. unfold update, set_isLoading. cbn.
  rewrite !alter_alter_eq, (alter_alt_Some _ _ _ _ Hg). reflexivity.
Qed.

(** An array that reaches index 359 has all four landmarks. *)
Lemma landmarks_present (face : Face) :
  (359 < length (scaledMesh face))%nat ->
  exists le re nt ec,
    scaledMesh face !! 130%nat = Some le /\ scaledMesh face !! 359%nat = Some re /\
    scaledMesh face !! 70%nat = Some nt /\ scaledMesh face !! 168%nat = Some ec.
Proof.
  intros Hlen.
  destruct (lookup_lt_is_Some_2 (scaledMesh face) 130) as [le Hle]; [lia|].
  destruct (lookup_lt_is_Some_2 (scaledMesh face) 359) as [re Hre]; [lia|].
  destruct (lookup_lt_is_Some_2 (scaledMesh face) 70) as [nt Hnt]; [lia|].
  destruct (lookup_lt_is_Some_2 (scaledMesh face) 168) as [ec Hec]; [lia|].
  eauto 10.
Qed.

(** The body after the [await] has no [await] of its own. *)
Lemma onFaceEstimates_settles (g : loc) (faceEstimates : list Face) (w : World) :
  suspended (run (onFaceEstimates g faceEstimates) w) = [].
Proof.
  destruct faceEstimates as [|face rest]; [reflexivity|].
  unfold onFaceEstimates.
  destruct (scaledMesh face !! 130%nat), (scaledMesh face !! 359%nat),
           (scaledMesh face !! 70%nat), (scaledMesh face !! 168%nat); reflexivity.
Qed.

(** Only a cycle that found the ref, the model and the glasses set and the
    video at [readyState] 4 reaches the detection call, and what it leaves
    suspended is [onFaceEstimates]. *)
Lemma detectAndPositionGlasses_cases (model : option Model) (glassesMesh : option loc)
    (w : World) :
  (exists r m g,
     webcamRef_current w = Some r /\ model = Some m /\ glassesMesh = Some g /\
     readyState (video w) = 4%Z /\
     run (detectAndPositionGlasses model glassesMesh) w =
       Awaiting w m (fun faceEstimates => onFaceEstimates g faceEstimates)) \/
  ((webcamRef_current w = None \/ model = None \/ glassesMesh = None \/
    readyState (video w) <> 4%Z) /\
   run (detectAndPositionGlasses model glassesMesh) w = Returned w).
Proof.
  unfold detectAndPositionGlasses. cbn.
  destruct (webcamRef_current w) as [r|] eqn:Hr; [|right; cbn; auto].
  destruct model as [m|]; [|right; cbn; auto].
  destruct glassesMesh as [g|]; [|right; cbn; auto].
  cbn. destruct (Z.eqb_spec (readyState (video w)) 4) as [H4|H4].
  - left. exists r, m, g. cbn. auto.
  - right. cbn. auto 6.
Qed.

Lemma suspended_from_cycle (model : option Model) (glassesMesh : option loc) (w : World) :
  Forall from_cycle (suspended (run (detectAndPositionGlasses model glassesMesh) w)) /\
  world_after (run (detectAndPositionGlasses model glassesMesh) w) = w.
Proof.
  destruct (detectAndPositionGlasses_cases model glassesMesh w)
    as [(r & m & g & _ & _ & _ & _ & ->) | [_ ->]]; cbn; split; auto.
  repeat constructor. exists g. reflexivity.
Qed.

Lemma step_from_cycle (s : Page) (a : Action) :
  Forall from_cycle (pending s) -> Forall from_cycle (pending (step s a)).
Proof.
  intros Hs. destruct a as [c| | |i fe|i|r v]; cbn; auto.
  - destruct (interval s) as [c|]; cbn; auto.
    apply Forall_app. split; [assumption|apply suspended_from_cycle].
  - destruct (pending s !! i) as [[k|]|] eqn:Hi; cbn; auto.
    destruct (Forall_lookup_1 _ _ _ _ Hs Hi) as [g Hk].
    rewrite Hk, onFaceEstimates_settles, app_nil_r.
    apply Forall_insert; [assumption|exact I].
  - apply Forall_insert; [assumption|exact I].
Qed.

Lemma reachable_from_cycle (s : Page) : reachable s -> Forall from_cycle (pending s).
Proof.
  induction 1 as [w|s a _ IH]; [constructor|]. apply step_from_cycle, IH.
Qed.

(** What resolving a suspended cycle does to the page. *)
Lemma step_Resolve (s : Page) (i : nat) (k : list Face -> Prog unit)
    (faceEstimates : list Face) :
  reachable s -> pending s !! i = Some (Some k) ->
  exists g,
    step s (Resolve i faceEstimates) =
    mkPage (world_after (run (onFaceEstimates g faceEstimates) (world s)))
           (interval s) (<[i := None]> (pending s)).
Proof.
  intros Hs Hi.
  destruct (Forall_lookup_1 _ _ _ _ (reachable_from_cycle s Hs) Hi) as [g Hk].
  exists g. cbn. rewrite Hi, Hk, onFaceEstimates_settles, app_nil_r. reflexivity.
Qed.

(** A tick never writes; it can only add a detection request. *)
Lemma step_Tick_world (s : Page) : world (step s Tick) = world s.
Proof.
  cbn. destruct (interval s) as [c|]; [|reflexivity]. cbn.
  apply suspended_from_cycle.
Qed.

Lemma sqrt_sum_squares_nonneg (a b : R) :
  0 <= Math.sqrt (Math.pow a 2 + Math.pow b 2) / 250.
Proof.
  unfold Math.sqrt. pose proof (sqrt_pos (Math.pow a 2 + Math.pow b 2)). lra.
Qed.

Lemma coincident_scale (a b c d : R) :
  a = b -> c = d -> Math.sqrt (Math.pow (a - b) 2 + Math.pow (c - d) 2) / 250 = 0.
Proof.
  intros -> ->. unfold Math.sqrt, Math.pow.
  replace ((b - b) ^ 2 + (d - d) ^ 2) with 0 by ring.
  rewrite sqrt_0. lra.
Qed.

(** ** The pose written by an applying cycle *)

(** C1. When the detection result is non-empty, the cycle writes
    [eyeDistance / 250] to each of the three scale axes, where
    [eyeDistance] is the Euclidean distance between keypoints 130 and 359.
    The value is 0 when the two keypoints coincide, and a result whose eye
    distance is twice as large gets twice the scale. *)
Theorem scale_is_eye_distance_over_250 (w : World) (g : loc) (o : THREE.Object3D)
    (face : Face) (rest : list Face) (leftEye rightEye : Keypoint) :
  heap w !! g = Some o ->
  scaledMesh face !! 130%nat = Some leftEye ->
  scaledMesh face !! 359%nat = Some rightEye ->
  let eyeDistance :=
    Math.sqrt (Math.pow (k0 rightEye - k0 leftEye) 2 +
               Math.pow (k1 rightEye - k1 leftEye) 2) in
  exists w' o',
    run (onFaceEstimates g (face :: rest)) w = Returned w' /\
    heap w' !! g = Some o' /\
    THREE.scale o' =
      THREE.mkVector3 (eyeDistance / 250) (eyeDistance / 250) (eyeDistance / 250) /\
    (k0 rightEye = k0 leftEye -> k1 rightEye = k1 leftEye ->
     THREE.scale o' = THREE.mkVector3 0 0 0) /\
    (forall (w2 : World) (g2 : loc) (o2 : THREE.Object3D) (face2 : Face)
            (rest2 : list Face) (leftEye2 rightEye2 : Keypoint),
       heap w2 !! g2 = Some o2 ->
       scaledMesh face2 !! 130%nat = Some leftEye2 ->
       scaledMesh face2 !! 359%nat = Some rightEye2 ->
       Math.sqrt (Math.pow (k0 rightEye2 - k0 leftEye2) 2 +
                  Math.pow (k1 rightEye2 - k1 leftEye2) 2) = 2 * eyeDistance ->
       exists w2' o2',
         run (onFaceEstimates g2 (face2 :: rest2)) w2 = Returned w2' /\
         heap w2' !! g2 = Some o2' /\
         THREE.scale o2' =
           THREE.mkVector3 (2 * THREE.x (THREE.scale o')) (2 * THREE.y (THREE.scale o'))
                           (2 * THREE.z (THREE.scale o'))).
Proof.
  intros Hg Hle Hre eyeDistance.
  destruct (landmarks_present face) as (le & re & nt & ec & Hle' & Hre' & Hnt & Hec).
  { apply lookup_lt_is_Some_1. eauto. }
  assert (le = leftEye) as -> by congruence.
  assert (re = rightEye) as -> by congruence.
  pose proof (onFaceEstimates_applies w g o face rest _ _ _ _ Hg Hle Hre Hnt Hec) as Hrun.
  eexists _, _. split; [exact Hrun|].
  cbn. rewrite lookup_insert_eq. split; [reflexivity|]. cbn.
  split; [reflexivity|]. split.
  - intros H0 H1. f_equal; apply coincident_scale; assumption.
  - intros w2 g2 o2 face2 rest2 leftEye2 rightEye2 Hg2 Hle2 Hre2 Hdouble.
    destruct (landmarks_present face2) as (le2 & re2 & nt2 & ec2 & Hle2' & Hre2' & Hnt2 & Hec2).
    { apply lookup_lt_is_Some_1. eauto. }
    assert (le2 = leftEye2) as -> by congruence.
    assert (re2 = rightEye2) as -> by congruence.
    pose proof (onFaceEstimates_applies w2 g2 o2 face2 rest2 _ _ _ _
                  Hg2 Hle2 Hre2 Hnt2 Hec2) as Hrun2.
    eexists _, _. split; [exact Hrun2|].
    cbn. rewrite lookup_insert_eq. split; [reflexivity|]. cbn.
    rewrite Hdouble. subst eyeDistance. f_equal; lra.
Qed.

Lemma scale_is_eye_distance_over_250_witness :
  exists w' o',
    run (onFaceEstimates 0%nat [scenario_face]) scenario_world = Returned w' /\
    heap w' !! 0%nat = Some o' /\
    THREE.scale o' = THREE.mkVector3 (Math.sqrt (Math.pow (300 - 100) 2 + Math.pow (200 - 200) 2) / 250)
                                     (Math.sqrt (Math.pow (300 - 100) 2 + Math.pow (200 - 200) 2) / 250)
                                     (Math.sqrt (Math.pow (300 - 100) 2 + Math.pow (200 - 200) 2) / 250).
Proof.
  destruct (scale_is_eye_distance_over_250 scenario_world 0%nat loaded_glasses
              scenario_face [] (mkKeypoint 100 200 0) (mkKeypoint 300 200 0)
              eq_refl eq_refl eq_refl) as (w' & o' & Hrun & Ho' & Hs & _).
  exists w', o'. auto.
Defined.

(** C2. The position written is the offset of keypoint 168 from the frame
    centre, scaled by 0.01 on X and by -0.01 on Y, plus the offsets 0 and
    -0.1; the Z position is the constant 1. *)
Theorem position_from_eye_center (w : World) (g : loc) (o : THREE.Object3D)
    (face : Face) (rest : list Face) (leftEye rightEye noseTip eyeCenter : Keypoint) :
  heap w !! g = Some o ->
  scaledMesh face !! 130%nat = Some leftEye ->
  scaledMesh face !! 359%nat = Some rightEye ->
  scaledMesh face !! 70%nat = Some noseTip ->
  scaledMesh face !! 168%nat = Some eyeCenter ->
  let scaleX := 0.01 in
  let scaleY := 0.01 in
  let offsetX := 0 in
  let offsetY := - (0.1) in
  exists w' o',
    run (onFaceEstimates g (face :: rest)) w = Returned w' /\
    heap w' !! g = Some o' /\
    THREE.x (THREE.position o') =
      (k0 eyeCenter - videoWidth (video w) / 2) * scaleX + offsetX /\
    THREE.y (THREE.position o') =
      (k1 eyeCenter - videoHeight (video w) / 2) * (- scaleY) + offsetY /\
    THREE.z (THREE.position o') = 1.
Proof.
  intros Hg Hle Hre Hnt Hec scaleX scaleY offsetX offsetY.
  eexists _, _. split; [eapply onFaceEstimates_applies; eassumption|].
  cbn. rewrite lookup_insert_eq. split; [reflexivity|]. cbn.
  subst scaleX scaleY offsetX offsetY. repeat split; lra.
Qed.

Lemma position_from_eye_center_witness :
  exists w' o',
    run (onFaceEstimates 0%nat [scenario_face]) scenario_world = Returned w' /\
    heap w' !! 0%nat = Some o' /\
    THREE.x (THREE.position o') = (200 - 800 / 2) * 0.01 + 0 /\
    THREE.y (THREE.position o') = (200 - 800 / 2) * (- (0.01)) + - (0.1) /\
    THREE.z (THREE.position o') = 1.
Proof.
  exact (position_from_eye_center scenario_world 0%nat loaded_glasses scenario_face []
           (mkKeypoint 100 200 0) (mkKeypoint 300 200 0)
           (mkKeypoint 200 260 0) (mkKeypoint 200 200 0)
           eq_refl eq_refl eq_refl eq_refl eq_refl).
Defined.

(** C3. The rotation written about Z (roll) is the negated [atan2] of the
    eye-to-eye line; the rotation written about X (pitch) is the [atan2] of
    the vector from the nose tip (keypoint 70) to the eye centre
    (keypoint 168). *)
Theorem rotation_roll_and_pitch (w : World) (g : loc) (o : THREE.Object3D)
    (face : Face) (rest : list Face) (leftEye rightEye noseTip eyeCenter : Keypoint) :
  heap w !! g = Some o ->
  scaledMesh face !! 130%nat = Some leftEye ->
  scaledMesh face !! 359%nat = Some rightEye ->
  scaledMesh face !! 70%nat = Some noseTip ->
  scaledMesh face !! 168%nat = Some eyeCenter ->
  exists w' o',
    run (onFaceEstimates g (face :: rest)) w = Returned w' /\
    heap w' !! g = Some o' /\
    THREE.z (THREE.rotation o') =
      - Math.atan2 (k1 rightEye - k1 leftEye) (k0 rightEye - k0 leftEye) /\
    THREE.x (THREE.rotation o') =
      Math.atan2 (k1 eyeCenter - k1 noseTip) (k0 eyeCenter - k0 noseTip).
Proof.
  intros Hg Hle Hre Hnt Hec.
  eexists _, _. split; [eapply onFaceEstimates_applies; eassumption|].
  cbn. rewrite lookup_insert_eq. auto.
Qed.

Lemma rotation_roll_and_pitch_witness :
  exists w' o',
    run (onFaceEstimates 0%nat [scenario_face]) scenario_world = Returned w' /\
    heap w' !! 0%nat = Some o' /\
    THREE.z (THREE.rotation o') = - Math.atan2 (200 - 200) (300 - 100) /\
    THREE.x (THREE.rotation o') = Math.atan2 (200 - 260) (200 - 200).
Proof.
  exact (rotation_roll_and_pitch scenario_world 0%nat loaded_glasses scenario_face []
           (mkKeypoint 100 200 0) (mkKeypoint 300 200 0)
           (mkKeypoint 200 260 0) (mkKeypoint 200 200 0)
           eq_refl eq_refl eq_refl eq_refl eq_refl).
Defined.

(** C4. The rotation written about Z (roll) and the rotation written about
    Y (yaw) are the same number, the negated [atan2] of the eye-to-eye
    line, whatever the eye coordinates. *)
Theorem roll_equals_yaw (w : World) (g : loc) (o : THREE.Object3D)
    (face : Face) (rest : list Face) (leftEye rightEye noseTip eyeCenter : Keypoint) :
  heap w !! g = Some o ->
  scaledMesh face !! 130%nat = Some leftEye ->
  scaledMesh face !! 359%nat = Some rightEye ->
  scaledMesh face !! 70%nat = Some noseTip ->
  scaledMesh face !! 168%nat = Some eyeCenter ->
  exists w' o',
    run (onFaceEstimates g (face :: rest)) w = Returned w' /\
    heap w' !! g = Some o' /\
    THREE.z (THREE.rotation o') = THREE.y (THREE.rotation o') /\
    THREE.y (THREE.rotation o') =
      - Math.atan2 (k1 rightEye - k1 leftEye) (k0 rightEye - k0 leftEye).
Proof.
  intros Hg Hle Hre Hnt Hec.
  eexists _, _. split; [eapply onFaceEstimates_applies; eassumption|].
  cbn. rewrite lookup_insert_eq. auto.
Qed.

Lemma roll_equals_yaw_witness :
  exists w' o',
    run (onFaceEstimates 0%nat [scenario_face]) scenario_world = Returned w' /\
    heap w' !! 0%nat = Some o' /\
    THREE.z (THREE.rotation o') = THREE.y (THREE.rotation o') /\
    THREE.y (THREE.rotation o') = - Math.atan2 (200 - 200) (300 - 100).
Proof.
  exact (roll_equals_yaw scenario_world 0%nat loaded_glasses scenario_face []
           (mkKeypoint 100 200 0) (mkKeypoint 300 200 0)
           (mkKeypoint 200 260 0) (mkKeypoint 200 200 0)
           eq_refl eq_refl eq_refl eq_refl eq_refl).
Defined.

(** C10. The scale written to the three axes is never negative. *)
Theorem scale_is_nonnegative (w : World) (g : loc) (o : THREE.Object3D)
    (face : Face) (rest : list Face) :
  heap w !! g = Some o ->
  (359 < length (scaledMesh face))%nat ->
  exists w' o',
    run (onFaceEstimates g (face :: rest)) w = Returned w' /\
    heap w' !! g = Some o' /\
    0 <= THREE.x (THREE.scale o') /\
    0 <= THREE.y (THREE.scale o') /\
    0 <= THREE.z (THREE.scale o').
Proof.
  intros Hg Hlen.
  destruct (landmarks_present face Hlen) as (le & re & nt & ec & Hle & Hre & Hnt & Hec).
  eexists _, _. split; [eapply onFaceEstimates_applies; eassumption|].
  cbn. rewrite lookup_insert_eq. split; [reflexivity|]. cbn.
  repeat split; apply sqrt_sum_squares_nonneg.
Qed.

Lemma scale_is_nonnegative_witness :
  exists w' o',
    run (onFaceEstimates 0%nat [scenario_face]) scenario_world = Returned w' /\
    heap w' !! 0%nat = Some o' /\
    0 <= THREE.x (THREE.scale o') /\
    0 <= THREE.y (THREE.scale o') /\
    0 <= THREE.z (THREE.scale o').
Proof.
  apply (scale_is_nonnegative scenario_world 0%nat loaded_glasses scenario_face []).
  - reflexivity.
  - vm_compute. lia.
Defined.

(** The body after the [await] reads nothing of the detection result but
    the four landmarks of its first face. *)
Lemma onFaceEstimates_ext (g : loc) (face1 face2 : Face) (rest1 rest2 : list Face)
    (w : World) :
  scaledMesh face1 !! 130%nat = scaledMesh face2 !! 130%nat ->
  scaledMesh face1 !! 359%nat = scaledMesh face2 !! 359%nat ->
  scaledMesh face1 !! 70%nat = scaledMesh face2 !! 70%nat ->
  scaledMesh face1 !! 168%nat = scaledMesh face2 !! 168%nat ->
  onFaceEstimates g (face1 :: rest1) = onFaceEstimates g (face2 :: rest2).
Proof.
  intros H130 H359 H70 H168. unfold onFaceEstimates.
  rewrite H130, H359, H70, H168. reflexivity.
Qed.

(** C9. Two applying cycles whose detection results agree at indices 130,
    359, 70 and 168 and whose frames have the same dimensions leave the same
    position, scale and rotation on the glasses, whatever the other
    keypoints, the other faces and the previous transform are. *)
Theorem pose_depends_only_on_four_landmarks (w1 w2 : World) (g1 g2 : loc)
    (o1 o2 : THREE.Object3D) (face1 face2 : Face) (rest1 rest2 : list Face) :
  scaledMesh face1 !! 130%nat = scaledMesh face2 !! 130%nat ->
  scaledMesh face1 !! 359%nat = scaledMesh face2 !! 359%nat ->
  scaledMesh face1 !! 70%nat = scaledMesh face2 !! 70%nat ->
  scaledMesh face1 !! 168%nat = scaledMesh face2 !! 168%nat ->
  videoWidth (video w1) = videoWidth (video w2) ->
  videoHeight (video w1) = videoHeight (video w2) ->
  heap w1 !! g1 = Some o1 ->
  heap w2 !! g2 = Some o2 ->
  (359 < length (scaledMesh face1))%nat ->
  exists w1' w2' pose,
    run (onFaceEstimates g1 (face1 :: rest1)) w1 = Returned w1' /\
    run (onFaceEstimates g2 (face2 :: rest2)) w2 = Returned w2' /\
    heap w1' !! g1 = Some pose /\
    heap w2' !! g2 = Some pose.
Proof.
  intros H130 H359 H70 H168 Hw Hh Hg1 Hg2 Hlen.
  destruct (landmarks_present face1 Hlen) as (le & re & nt & ec & Hle & Hre & Hnt & Hec).
  pose proof (onFaceEstimates_applies w1 g1 o1 face1 rest1 le re nt ec
                Hg1 Hle Hre Hnt Hec) as Hrun1.
  rewrite H130 in Hle. rewrite H359 in Hre. rewrite H70 in Hnt. rewrite H168 in Hec.
  pose proof (onFaceEstimates_applies w2 g2 o2 face2 rest2 le re nt ec
                Hg2 Hle Hre Hnt Hec) as Hrun2.
  rewrite <- Hw, <- Hh in Hrun2.
  eexists _, _, _. split; [exact Hrun1|]. split; [exact Hrun2|].
  cbn. rewrite !lookup_insert_eq. split; reflexivity.
Qed.

Lemma pose_depends_only_on_four_landmarks_witness :
  exists w1' w2' pose,
    run (onFaceEstimates 0%nat [scenario_face]) scenario_world = Returned w1' /\
    run (onFaceEstimates 0%nat [other_face; scenario_face]) other_world = Returned w2' /\
    heap w1' !! 0%nat = Some pose /\
    heap w2' !! 0%nat = Some pose.
Proof.
  apply (pose_depends_only_on_four_landmarks scenario_world other_world 0%nat 0%nat
           loaded_glasses
           (THREE.mkObject3D (THREE.mkVector3 1 2 3) (THREE.mkVector3 4 5 6)
                             (THREE.mkVector3 7 8 9))
           scenario_face other_face [] [scenario_face]);
    try reflexivity.
  vm_compute. lia.
Defined.

(** The specification's scenario, evaluated: scale 0.8, position
    (-2, 1.9, 1), a level eye line, and the nose straight below the eye
    centre. *)
Example scenario_pose :
  run (onFaceEstimates 0%nat [scenario_face]) scenario_world =
  Returned (mkWorld (Some WebcamInstance) (mkVideo 4 800 800) false
              {[ 0%nat := THREE.mkObject3D (THREE.mkVector3 (-2) 1.9 1)
                                           (THREE.mkVector3 0.8 0.8 0.8)
                                           (THREE.mkVector3 (- (PI / 2)) 0 0) ]}).
Proof.
  rewrite (onFaceEstimates_applies scenario_world 0%nat loaded_glasses scenario_face []
             (mkKeypoint 100 200 0) (mkKeypoint 300 200 0)
             (mkKeypoint 200 260 0) (mkKeypoint 200 200 0)
             eq_refl eq_refl eq_refl eq_refl eq_refl).
  cbn [scenario_world webcamRef_current video heap k0 k1 videoWidth videoHeight].
  assert (Math.sqrt (Math.pow (300 - 100) 2 + Math.pow (200 - 200) 2) = 200) as ->.
  { unfold Math.sqrt, Math.pow.
    replace ((300 - 100) ^ 2 + (200 - 200) ^ 2) with (200 * 200) by ring.
    apply sqrt_square. lra. }
  assert (Math.atan2 (200 - 200) (300 - 100) = 0) as ->.
  { unfold Math.atan2. destruct (Rlt_dec 0 (300 - 100)) as [_|H]; [|lra].
    replace ((200 - 200) / (300 - 100)) with 0 by lra. apply atan_0. }
  assert (Math.atan2 (200 - 260) (200 - 200) = - (PI / 2)) as ->.
  { unfold Math.atan2.
    destruct (Rlt_dec 0 (200 - 200)) as [H|_]; [lra|].
    destruct (Rlt_dec (200 - 200) 0) as [H|_]; [lra|].
    destruct (Rlt_dec 0 (200 - 260)) as [H|_]; [lra|].
    destruct (Rlt_dec (200 - 260) 0) as [_|H]; [reflexivity|lra]. }
  rewrite insert_singleton_eq.
  do 2 f_equal. f_equal. f_equal; f_equal; lra.
Qed.

(** ** The cycles that do not apply *)

Lemma reachable_exec (s : Page) (l : list Action) : reachable s -> reachable (exec s l).
Proof.
  revert s. induction l as [|a l IH]; intros s Hs; [exact Hs|].
  cbn. apply IH. constructor. exact Hs.
Qed.

Lemma page_eta (s : Page) : mkPage (world s) (interval s) (pending s) = s.
Proof. destruct s. reflexivity. Qed.

(** A tick whose cycle returns before the detection call leaves the page as
    it is. *)
Lemma step_Tick_returned (s : Page) (c : Closure) :
  interval s = Some c ->
  run (detectAndPositionGlasses (closure_model c) (closure_glassesMesh c)) (world s) =
    Returned (world s) ->
  step s Tick = s.
Proof.
  intros Hc Hrun. unfold step. rewrite Hc. cbv zeta. rewrite Hrun.
  unfold world_after, suspended. rewrite app_nil_r, <- Hc. apply page_eta.
Qed.

(** Resolving a call to an empty array runs [onFaceEstimates] on [[]],
    which returns at once. *)
Lemma run_suspended_empty (s : Page) (i : nat) (k : list Face -> Prog unit) :
  reachable s -> pending s !! i = Some (Some k) ->
  run (k []) (world s) = Returned (world s).
Proof.
  intros Hs Hi.
  destruct (Forall_lookup_1 _ _ _ _ (reachable_from_cycle s Hs) Hi) as [g ->].
  reflexivity.
Qed.

Lemma step_Resolve_empty (s : Page) (i : nat) :
  reachable s -> world (step s (Resolve i [])) = world s.
Proof.
  intros Hs. cbn. destruct (pending s !! i) as [[k|]|] eqn:Hi; try reflexivity.
  cbn. rewrite (run_suspended_empty s i k Hs Hi). reflexivity.
Qed.

(** C5. When a detection call resolves to an empty array, the rest of its
    cycle returns at once: the world, hence every field of every THREE
    object, is what it was. *)
Theorem empty_result_leaves_overlay (s : Page) (i : nat) :
  reachable s ->
  world (step s (Resolve i [])) = world s /\
  heap (world (step s (Resolve i []))) = heap (world s) /\
  (forall k, pending s !! i = Some (Some k) -> run (k []) (world s) = Returned (world s)).
Proof.
  intros Hs. rewrite (step_Resolve_empty s i Hs).
  repeat split. intros k Hi. exact (run_suspended_empty s i k Hs Hi).
Qed.

Lemma empty_result_leaves_overlay_witness :
  let s := exec (mounted scenario_world) [Effect ready; Tick] in
  world (step s (Resolve 0 [])) = world s /\
  heap (world (step s (Resolve 0 []))) = heap (world s) /\
  (forall k, pending s !! 0%nat = Some (Some k) -> run (k []) (world s) = Returned (world s)).
Proof.
  intros s. apply (empty_result_leaves_overlay s 0).
  apply reachable_exec. apply reach_mounted.
Defined.

(** C6. A tick that finds the webcam ref, the model or the glasses unset
    leaves the page as it is: no detection call is issued and nothing is
    written.  On every reachable page, a tick that issues a detection call
    found all three set, a tick writes no THREE object, and the only action
    that changes a THREE object is the resolution of a detection call to a
    non-empty array. *)
Theorem idle_never_polls_nor_mutates (s : Page) :
  reachable s ->
  (forall c, interval s = Some c ->
     webcamRef_current (world s) = None \/ closure_model c = None \/
     closure_glassesMesh c = None ->
     step s Tick = s) /\
  (pending (step s Tick) <> pending s ->
   exists c r m g,
     interval s = Some c /\ webcamRef_current (world s) = Some r /\
     closure_model c = Some m /\ closure_glassesMesh c = Some g) /\
  world (step s Tick) = world s /\
  (forall a, heap (world (step s a)) <> heap (world s) ->
     exists i face rest, a = Resolve i (face :: rest)).
Proof.
  intros Hs. repeat split.
  - intros c Hc Hunset. apply (step_Tick_returned s c Hc).
    destruct (detectAndPositionGlasses_cases (closure_model c) (closure_glassesMesh c)
                (world s)) as [(r & m & g & Hr & Hm & Hg & _) | [_ Hrun]]; [|exact Hrun].
    destruct Hunset as [H|[H|H]]; congruence.
  - intros Hp. destruct (interval s) as [c|] eqn:Hc.
    2: { exfalso. apply Hp. unfold step. rewrite Hc. reflexivity. }
    destruct (detectAndPositionGlasses_cases (closure_model c) (closure_glassesMesh c)
                (world s)) as [(r & m & g & Hr & Hm & Hg & _) | [_ Hrun]].
    + exists c, r, m, g. auto.
    + exfalso. apply Hp. rewrite (step_Tick_returned s c Hc Hrun). reflexivity.
  - apply step_Tick_world.
  - intros a Ha. destruct a as [c| | |i [|face rest]|i|r v];
      try (exfalso; apply Ha; reflexivity).
    + exfalso. apply Ha. rewrite step_Tick_world. reflexivity.
    + exfalso. apply Ha. rewrite (step_Resolve_empty s i Hs). reflexivity.
    + eauto.
Qed.

Lemma idle_never_polls_nor_mutates_witness :
  let s := exec (mounted scenario_world) [Effect (mkClosure (Some FaceMesh) None)] in
  (forall c, interval s = Some c ->
     webcamRef_current (world s) = None \/ closure_model c = None \/
     closure_glassesMesh c = None ->
     step s Tick = s) /\
  (pending (step s Tick) <> pending s ->
   exists c r m g,
     interval s = Some c /\ webcamRef_current (world s) = Some r /\
     closure_model c = Some m /\ closure_glassesMesh c = Some g) /\
  world (step s Tick) = world s /\
  (forall a, heap (world (step s a)) <> heap (world s) ->
     exists i face rest, a = Resolve i (face :: rest)).
Proof.
  intros s. apply (idle_never_polls_nor_mutates s).
  apply reachable_exec. apply reach_mounted.
Defined.

(** C8. A tick that finds the video at a [readyState] other than 4 leaves
    the page as it is, also when the ref, the model and the glasses are all
    set: no detection call is issued and nothing is written. *)
Theorem video_not_ready_tick_is_noop (s : Page) :
  readyState (video (world s)) <> 4%Z ->
  step s Tick = s /\
  forall c, interval s = Some c ->
    run (detectAndPositionGlasses (closure_model c) (closure_glassesMesh c)) (world s) =
      Returned (world s).
Proof.
  intros Hrs.
  assert (forall c, interval s = Some c ->
    run (detectAndPositionGlasses (closure_model c) (closure_glassesMesh c)) (world s) =
      Returned (world s)) as Hrun.
  { intros c _.
    destruct (detectAndPositionGlasses_cases (closure_model c) (closure_glassesMesh c)
                (world s)) as [(r & m & g & _ & _ & _ & H4 & _) | [_ Hrun]];
      [contradiction|exact Hrun]. }
  split; [|exact Hrun].
  destruct (interval s) as [c|] eqn:Hc.
  - apply (step_Tick_returned s c Hc). apply Hrun. reflexivity.
  - cbn. rewrite Hc. reflexivity.
Qed.

Lemma video_not_ready_tick_is_noop_witness :
  step buffering_page Tick = buffering_page /\
  forall c, interval buffering_page = Some c ->
    run (detectAndPositionGlasses (closure_model c) (closure_glassesMesh c))
        (world buffering_page) = Returned (world buffering_page).
Proof.
  apply (video_not_ready_tick_is_noop buffering_page). cbn. lia.
Defined.

(** ** Stopping the interval *)

(** Without a new effect run, a cleared interval stays cleared and the
    number of detection calls issued so far stays what it is. *)
Lemma stopped_stays_stopped (l : list Action) (s : Page) :
  reachable s -> interval s = None ->
  Forall (fun a => starts_interval a = false) l ->
  interval (exec s l) = None /\ length (pending (exec s l)) = length (pending s).
Proof.
  revert s. induction l as [|a l IH]; intros s Hs Hstop Hl; [auto|].
  apply Forall_cons in Hl as [Ha Hl].
  change (exec s (a :: l)) with (exec (step s a) l).
  assert (interval (step s a) = None /\ length (pending (step s a)) = length (pending s))
    as [Hstop' Hlen'].
  { destruct a as [c| | |i fe|i|r v]; try discriminate Ha.
    - cbn. auto.
    - cbn. rewrite Hstop. auto.
    - destruct (pending s !! i) as [[k|]|] eqn:Hi.
      + destruct (step_Resolve s i k fe Hs Hi) as [g ->]. cbn.
        rewrite length_insert. auto.
      + cbn. rewrite Hi. auto.
      + cbn. rewrite Hi. auto.
    - cbn. rewrite length_insert. auto.
    - cbn. auto. }
  destruct (IH (step s a) (reach_step s a Hs) Hstop' Hl) as [H1 H2].
  split; congruence.
Qed.

(** C7 as the specification states it fails: a detection call issued
    before [clearInterval] and resolved after it still writes the glasses. *)
Lemma in_flight_result_applied_after_stop :
  let s := exec (mounted scenario_world) [Effect ready; Tick; Cleanup] in
  interval s = None /\
  heap (world (step s (Resolve 0 [scenario_face]))) <> heap (world s).
Proof.
  intros s. split; [reflexivity|].
  assert (world (step s (Resolve 0 [scenario_face])) =
          world_after (run (onFaceEstimates 0%nat [scenario_face]) scenario_world)) as ->
    by reflexivity.
  rewrite scenario_pose. intros H.
  apply (f_equal (fun h : gmap nat THREE.Object3D => h !! 0%nat)) in H.
  cbn in H. rewrite !lookup_singleton_eq in H.
  apply (f_equal (fmap (fun o => THREE.z (THREE.position o)))) in H.
  cbn in H. injection H as H. lra.
Qed.

(** C7, amended. Once the interval is cleared, a tick does nothing and, as
    long as no effect run starts a new interval, no further detection call
    is issued.  A call that was in flight is not discarded: when it
    resolves, the rest of its cycle runs on the result against the glasses
    it captured. *)
Theorem stop_ends_polling_not_in_flight_cycles (s : Page) :
  reachable s ->
  interval s = None ->
  step s Tick = s /\
  (forall l, Forall (fun a => starts_interval a = false) l ->
     interval (exec s l) = None /\
     length (pending (exec s l)) = length (pending s)) /\
  (forall i k faceEstimates,
     pending s !! i = Some (Some k) ->
     exists g,
       (forall r, k r = onFaceEstimates g r) /\
       world (step s (Resolve i faceEstimates)) =
         world_after (run (onFaceEstimates g faceEstimates) (world s))).
Proof.
  intros Hs Hstop. repeat split.
  - cbn. rewrite Hstop. reflexivity.
  - apply (stopped_stays_stopped l s Hs Hstop H).
  - apply (stopped_stays_stopped l s Hs Hstop H).
  - intros i k fe Hi.
    destruct (Forall_lookup_1 _ _ _ _ (reachable_from_cycle s Hs) Hi) as [g Hk].
    exists g. split; [exact Hk|].
    cbn. rewrite Hi. cbn. rewrite Hk. reflexivity.
Qed.

Lemma stop_ends_polling_not_in_flight_cycles_witness :
  let s := exec (mounted scenario_world) [Effect ready; Tick; Cleanup] in
  step s Tick = s /\
  (forall l, Forall (fun a => starts_interval a = false) l ->
     interval (exec s l) = None /\
     length (pending (exec s l)) = length (pending s)) /\
  (forall i k faceEstimates,
     pending s !! i = Some (Some k) ->
     exists g,
       (forall r, k r = onFaceEstimates g r) /\
       world (step s (Resolve i faceEstimates)) =
         world_after (run (onFaceEstimates g faceEstimates) (world s))).
Proof.
  intros s. apply (stop_ends_polling_not_in_flight_cycles s).
  - apply reachable_exec. apply reach_mounted.
  - reflexivity.
Defined.

(** * Further properties of the cycle *)

(** ** What the body after the [await] can touch *)

(** Whatever the detection result, the body leaves the ref and the video as
    they are and changes the heap at most at the glasses it was given. *)
Lemma onFaceEstimates_shape (g : loc) (faceEstimates : list Face) (w : World) :
  exists b f,
    world_after (run (onFaceEstimates g faceEstimates) w) =
    mkWorld (webcamRef_current w) (video w) b (alter f g (heap w)) /\
    (b = isLoading w \/ b = false).
Proof.
  assert (alter (fun o : THREE.Object3D => o) g (heap w) = heap w) as Hid
    by (apply alter_id; reflexivity).
  destruct faceEstimates as [|face rest].
  - exists (isLoading w), (fun o => o). rewrite Hid. destruct w. cbn. auto.
  - unfold onFaceEstimates.
    destruct (scaledMesh face !! 359%nat), (scaledMesh face !! 130%nat),
             (scaledMesh face !! 168%nat), (scaledMesh face !! 70%nat);
      cbn; unfold update, set_isLoading; cbn; rewrite ?alter_alter_eq;
      first [ eexists false, _; split; [reflexivity|auto]
            | exists false, (fun o => o); rewrite Hid; auto ].
Qed.

(** On an array that has its four landmarks, the world the body leaves
    does not depend on the previous transform of the glasses. *)
Lemma onFaceEstimates_overwrites (w : World) (g : loc) (face : Face) (rest : list Face) :
  (359 < length (scaledMesh face))%nat ->
  exists pose,
    run (onFaceEstimates g (face :: rest)) w =
    Returned (mkWorld (webcamRef_current w) (video w) false
                (alter (fun _ => pose) g (heap w))) /\
    forall (b : bool) (f : THREE.Object3D -> THREE.Object3D),
      run (onFaceEstimates g (face :: rest))
          (mkWorld (webcamRef_current w) (video w) b (alter f g (heap w))) =
      Returned (mkWorld (webcamRef_current w) (video w) false
                  (alter (fun _ => pose) g (heap w))).
Proof.
  intros Hlen.
  destruct (landmarks_present face Hlen) as (le & re & nt & ec & Hle & Hre & Hnt & Hec).
  eexists (THREE.mkObject3D (THREE.mkVector3 _ _ _) (THREE.mkVector3 _ _ _)
                            (THREE.mkVector3 _ _ _)).
  split; [|intros b f]; unfold onFaceEstimates; rewrite Hle, Hre, Hnt, Hec; cbn;
    unfold update, set_isLoading; cbn; rewrite !alter_alter_eq;
    do 2 f_equal; apply alter_ext; intros o _;
    unfold compose, THREE.with_rotation, THREE.with_position, THREE.with_scale,
      THREE.set_x, THREE.set_y, THREE.set_z, THREE.set; cbn; reflexivity.
Qed.

(** ** [Math.atan2] *)




(** ** Edge cases of the body after the [await] *)

(** X1. A non-empty result whose first face has no keypoint 359 makes the
    cycle throw on [rightEye[0]]: the loading flag is cleared and nothing
    else is written, no field of any THREE object in particular. *)
Theorem short_mesh_throws_before_any_write (g : loc) (face : Face) (rest : list Face)
    (w : World) :
  (length (scaledMesh face) <= 359)%nat ->
  run (onFaceEstimates g (face :: rest)) w = Threw TypeError (set_isLoading false w).
Proof.
  intros Hlen. unfold onFaceEstimates.
  rewrite (lookup_ge_None_2 (scaledMesh face) 359) by lia. reflexivity.
Qed.

Lemma short_mesh_throws_before_any_write_witness :
  run (onFaceEstimates 0%nat [short_face; scenario_face]) scenario_world =
  Threw TypeError (set_isLoading false scenario_world).
Proof.
  apply (short_mesh_throws_before_any_write 0%nat short_face [scenario_face] scenario_world).
  vm_compute. lia.
Defined.

(** X2. Whatever the detection result, and whether the body returns or
    throws, it leaves the webcam ref and the video as they are, never turns
    the loading flag on, creates or removes no THREE object, and changes no
    THREE object other than the glasses it was given. *)
Theorem cycle_touches_only_its_glasses (g : loc) (faceEstimates : list Face) (w : World) :
  let w' := world_after (run (onFaceEstimates g faceEstimates) w) in
  webcamRef_current w' = webcamRef_current w /\
  video w' = video w /\
  (isLoading w' = isLoading w \/ isLoading w' = false) /\
  (forall l, l <> g -> heap w' !! l = heap w !! l) /\
  (forall l, is_Some (heap w' !! l) <-> is_Some (heap w !! l)).
Proof.
  intros w'. subst w'.
  destruct (onFaceEstimates_shape g faceEstimates w) as (b & f & -> & Hb).
  cbn. repeat split; auto.
  - intros l Hl. apply lookup_alter_ne. congruence.
  - intros H. apply lookup_alter_is_Some in H. exact H.
  - intros H. apply lookup_alter_is_Some. exact H.
Qed.

(** X3. Last writer wins: when a result with its four landmarks is applied
    after any other result (empty, too short or complete), the world is the
    one that applying it alone gives; nothing of the earlier pose is left. *)
Theorem later_result_overwrites_earlier (g : loc) (earlier : list Face) (face : Face)
    (rest : list Face) (w : World) :
  (359 < length (scaledMesh face))%nat ->
  run (onFaceEstimates g (face :: rest))
      (world_after (run (onFaceEstimates g earlier) w)) =
  run (onFaceEstimates g (face :: rest)) w.
Proof.
  intros Hlen.
  destruct (onFaceEstimates_shape g earlier w) as (b & f & -> & _).
  destruct (onFaceEstimates_overwrites w g face rest Hlen) as (pose & -> & Hafter).
  apply Hafter.
Qed.

Lemma later_result_overwrites_earlier_witness :
  run (onFaceEstimates 0%nat [scenario_face])
      (world_after (run (onFaceEstimates 0%nat [other_face]) scenario_world)) =
  run (onFaceEstimates 0%nat [scenario_face]) scenario_world.
Proof.
  apply (later_result_overwrites_earlier 0%nat [other_face] scenario_face [] scenario_world).
  vm_compute. lia.
Defined.

(** ** Geometry of the pose *)







(** X7. For an upright frontal face (eyes level with keypoint 359 to the
    right of keypoint 130, keypoint 70 straight below keypoint 168 in image
    coordinates) the rotation written is [(-PI/2, 0, 0)]: the neutral pose
    is not the zero rotation. *)
Theorem upright_face_rotation (w : World) (g : loc) (o : THREE.Object3D)
    (face : Face) (rest : list Face) (leftEye rightEye noseTip eyeCenter : Keypoint) :
  heap w !! g = Some o ->
  scaledMesh face !! 130%nat = Some leftEye ->
  scaledMesh face !! 359%nat = Some rightEye ->
  scaledMesh face !! 70%nat = Some noseTip ->
  scaledMesh face !! 168%nat = Some eyeCenter ->
  k1 rightEye = k1 leftEye -> k0 leftEye < k0 rightEye ->
  k0 noseTip = k0 eyeCenter -> k1 eyeCenter < k1 noseTip ->
  exists w' o',
    run (onFaceEstimates g (face :: rest)) w = Returned w' /\
    heap w' !! g = Some o' /\
    THREE.rotation o' = THREE.mkVector3 (- (PI / 2)) 0 0.
Proof.
  intros Hg Hle Hre Hnt Hec Hlevel Hright Hbelow Hdown.
  eexists _, _. split; [eapply onFaceEstimates_applies; eassumption|].
  cbn. rewrite lookup_insert_eq. split; [reflexivity|]. cbn.
  assert (Math.atan2 (k1 rightEye - k1 leftEye) (k0 rightEye - k0 leftEye) = 0) as ->.
  { unfold Math.atan2. destruct (Rlt_dec 0 (k0 rightEye - k0 leftEye)); [|lra].
    replace ((k1 rightEye - k1 leftEye) / (k0 rightEye - k0 leftEye)) with 0
      by (rewrite Hlevel; field; lra).
    apply atan_0. }
  assert (Math.atan2 (k1 eyeCenter - k1 noseTip) (k0 eyeCenter - k0 noseTip) = - (PI / 2))
    as ->.
  { unfold Math.atan2.
    destruct (Rlt_dec 0 (k0 eyeCenter - k0 noseTip)); [lra|].
    destruct (Rlt_dec (k0 eyeCenter - k0 noseTip) 0); [lra|].
    destruct (Rlt_dec 0 (k1 eyeCenter - k1 noseTip)); [lra|].
    destruct (Rlt_dec (k1 eyeCenter - k1 noseTip) 0); [reflexivity|lra]. }
  f_equal; lra.
Qed.

Lemma upright_face_rotation_witness :
  exists w' o',
    run (onFaceEstimates 0%nat [scenario_face]) scenario_world = Returned w' /\
    heap w' !! 0%nat = Some o' /\
    THREE.rotation o' = THREE.mkVector3 (- (PI / 2)) 0 0.
Proof.
  apply (upright_face_rotation scenario_world 0%nat loaded_glasses scenario_face []
           (mkKeypoint 100 200 0) (mkKeypoint 300 200 0)
           (mkKeypoint 200 260 0) (mkKeypoint 200 200 0));
    try reflexivity; cbn; lra.
Defined.

(** ** The interval, again *)

(** A tick on a ready page suspends one more cycle and writes nothing. *)
Lemma step_Tick_ready (s : Page) (c : Closure) (r : Webcam) (m : Model) (g : loc) :
  interval s = Some c ->
  closure_model c = Some m ->
  closure_glassesMesh c = Some g ->
  webcamRef_current (world s) = Some r ->
  readyState (video (world s)) = 4%Z ->
  step s Tick = mkPage (world s) (interval s) (pending s ++ [Some (onFaceEstimates g)]).
Proof.
  intros Hc Hm Hg Hr H4. unfold step. rewrite Hc. cbv zeta.
  destruct (detectAndPositionGlasses_cases (closure_model c) (closure_glassesMesh c)
              (world s)) as [(r' & m' & g' & _ & Hm' & Hg' & _ & ->) | [Hno _]].
  - cbn. assert (g' = g) as -> by congruence. reflexivity.
  - destruct Hno as [H|[H|[H|H]]]; congruence.
Qed.

(** X8. Ticks overlap: on a ready page every tick issues one more detection
    call, however many calls are still pending, and writes nothing.  After
    [n] ticks in a row there are [n] more suspended cycles, all bound to the
    same glasses. *)
Theorem ready_ticks_overlap (s : Page) (c : Closure) (r : Webcam) (m : Model) (g : loc)
    (n : nat) :
  interval s = Some c ->
  closure_model c = Some m ->
  closure_glassesMesh c = Some g ->
  webcamRef_current (world s) = Some r ->
  readyState (video (world s)) = 4%Z ->
  exec s (replicate n Tick) =
  mkPage (world s) (interval s) (pending s ++ replicate n (Some (onFaceEstimates g))).
Proof.
  intros Hc Hm Hg Hr H4. revert s Hc Hr H4.
  induction n as [|n IH]; intros s Hc Hr H4.
  - cbn. rewrite app_nil_r. symmetry. apply page_eta.
  - change (exec s (replicate (S n) Tick)) with (exec (step s Tick) (replicate n Tick)).
    rewrite (step_Tick_ready s c r m g Hc Hm Hg Hr H4).
    rewrite IH by (cbn; assumption). cbn.
    rewrite <- app_assoc. reflexivity.
Qed.

Lemma ready_ticks_overlap_witness :
  let s := exec (mounted scenario_world) [Effect ready] in
  exec s (replicate 3 Tick) =
  mkPage (world s) (interval s) (pending s ++ replicate 3 (Some (onFaceEstimates 0%nat))).
Proof.
  intros s.
  apply (ready_ticks_overlap s ready WebcamInstance FaceMesh 0%nat 3); reflexivity.
Defined.

Lemma step_isLoading (s : Page) (a : Action) :
  reachable s -> isLoading (world s) = false -> isLoading (world (step s a)) = false.
Proof.
  intros Hs Hoff. destruct a as [c| | |i fe|i|r v]; try exact Hoff.
  - rewrite step_Tick_world. exact Hoff.
  - destruct (pending s !! i) as [[k|]|] eqn:Hi.
    + destruct (step_Resolve s i k fe Hs Hi) as [g ->]. cbn.
      destruct (onFaceEstimates_shape g fe (world s)) as (b & f & -> & [->| ->]);
        [exact Hoff|reflexivity].
    + cbn. rewrite Hi. exact Hoff.
    + cbn. rewrite Hi. exact Hoff.
Qed.

(** X9. The loading flag never comes back: once [isLoading] is false it
    stays false through every sequence of ticks, resolutions, rejections,
    DOM changes and effect runs. *)
Theorem loading_flag_never_returns (s : Page) (l : list Action) :
  reachable s ->
  isLoading (world s) = false ->
  isLoading (world (exec s l)) = false.
Proof.
  revert s. induction l as [|a l IH]; intros s Hs Hoff; [exact Hoff|].
  change (exec s (a :: l)) with (exec (step s a) l).
  apply IH; [constructor; exact Hs|apply step_isLoading; assumption].
Qed.

Lemma loading_flag_never_returns_witness :
  isLoading (world (exec (mounted other_world)
                         [Effect ready; Tick; Tick; Resolve 1 []; Resolve 0 [short_face]]))
  = false.
Proof.
  apply (loading_flag_never_returns (mounted other_world)).
  - apply reach_mounted.
  - reflexivity.
Defined.

(** X10. Any non-empty detection result clears the loading flag, also when
    its first face is too short and the cycle throws. *)
Theorem detection_clears_loading_flag (s : Page) (i : nat)
    (k : list Face -> Prog unit) (face : Face) (rest : list Face) :
  reachable s ->
  pending s !! i = Some (Some k) ->
  isLoading (world (step s (Resolve i (face :: rest)))) = false.
Proof.
  intros Hs Hi. destruct (step_Resolve s i k (face :: rest) Hs Hi) as [g ->]. cbn.
  unfold onFaceEstimates.
  destruct (scaledMesh face !! 359%nat), (scaledMesh face !! 130%nat),
           (scaledMesh face !! 168%nat), (scaledMesh face !! 70%nat); reflexivity.
Qed.

Lemma detection_clears_loading_flag_witness :
  isLoading (world (step (exec (mounted scenario_world) [Effect ready; Tick])
                         (Resolve 0 [short_face]))) = false.
Proof.
  apply (detection_clears_loading_flag
           (exec (mounted scenario_world) [Effect ready; Tick]) 0
           (onFaceEstimates 0%nat) short_face []).
  - apply reachable_exec. apply reach_mounted.
  - reflexivity.
Defined.

(** ** The component *)

Lemma mount_consistent r v canvas h : consistent (mount r v canvas h).
Proof. unfold consistent, mount. cbn. repeat split. Qed.

(** The timer, the detection calls and the DOM keep the component
    consistent. *)
Lemma on_page_consistent (c : Component) (a : Action) :
  (forall cl, a <> Effect cl) -> a <> Cleanup ->
  consistent c -> consistent (on_page (fun s => step s a) c).
Proof.
  intros HnoE HnoC (Hint & Hglasses & Hstage).
  assert (interval (step (page c) a) = interval (page c)) as Hint'.
  { destruct a as [cl| | |i fe|i|r v]; try reflexivity.
    - destruct (HnoE cl eq_refl).
    - destruct (HnoC eq_refl).
    - unfold step. rewrite Hint. reflexivity.
    - cbn. destruct (pending (page c) !! i) as [[k|]|]; reflexivity. }
  unfold consistent. cbn. split; [congruence|].
  assert (match glassesMesh_state c with
          | None => step (page c) a = page c \/ exists r v, a = Dom r v
          | Some g =>
              Forall (bound_to g) (pending (step (page c) a)) /\
              (forall l, is_Some (heap (world (step (page c) a)) !! l) <->
                         is_Some (heap (world (page c)) !! l)) /\
              (isLoading (world (step (page c) a)) = isLoading (world (page c)) \/
               isLoading (world (step (page c) a)) = false)
          end) as Hstep.
  { destruct (glassesMesh_state c) as [g|] eqn:Hg.
    - destruct Hglasses as (Hlive & Hm & Hbound & _).
      destruct a as [cl| | |i fe|i|r v].
      + destruct (HnoE cl eq_refl).
      + destruct (HnoC eq_refl).
      + rewrite step_Tick_world. split; [|split; [reflexivity|auto]].
        unfold step. rewrite Hint. cbv zeta.
        destruct (detectAndPositionGlasses_cases
                    (closure_model (mkClosure (model_state c) (Some g)))
                    (closure_glassesMesh (mkClosure (model_state c) (Some g)))
                    (world (page c)))
          as [(r' & m' & g' & _ & _ & Hg' & _ & ->) | [_ ->]]; cbn.
        * apply Forall_app. split; [exact Hbound|].
          repeat constructor. cbn in Hg'. injection Hg' as ->. reflexivity.
        * rewrite app_nil_r. exact Hbound.
      + destruct (pending (page c) !! i) as [[k|]|] eqn:Hi.
        * pose proof (Forall_lookup_1 _ _ _ _ Hbound Hi) as Hk. cbn in Hk. subst k.
          cbn. rewrite Hi. cbn. rewrite onFaceEstimates_settles, app_nil_r.
          split; [apply Forall_insert; [exact Hbound|exact I]|].
          destruct (onFaceEstimates_shape g fe (world (page c))) as (b & f & -> & Hb).
          cbn. split; [intros l; apply lookup_alter_is_Some|].
          destruct Hb as [->| ->]; auto.
        * cbn. rewrite Hi. split; [exact Hbound|split; [reflexivity|auto]].
        * cbn. rewrite Hi. split; [exact Hbound|split; [reflexivity|auto]].
      + cbn. split; [apply Forall_insert; [exact Hbound|exact I]|].
        split; [reflexivity|auto].
      + cbn. split; [exact Hbound|split; [reflexivity|auto]].
    - destruct a as [cl| | |i fe|i|r v].
      + destruct (HnoE cl eq_refl).
      + destruct (HnoC eq_refl).
      + left. apply (step_Tick_returned (page c) _ Hint).
        destruct (detectAndPositionGlasses_cases
                    (closure_model (mkClosure (model_state c) None))
                    (closure_glassesMesh (mkClosure (model_state c) None))
                    (world (page c)))
          as [(r' & m' & g' & _ & _ & Hg' & _) | [_ Hrun]];
          [discriminate Hg'|exact Hrun].
      + left. cbn. rewrite Hglasses. reflexivity.
      + left. destruct (page c) as [w0 iv p]. cbn in Hglasses |- *. subst p.
        reflexivity.
      + right. eauto. }
  destruct (glassesMesh_state c) as [g|].
  - destruct Hglasses as (Hlive & Hm & Hbound & Hscene & Herr & Hsettled).
    destruct Hstep as (Hb & Hdom & Hload).
    split; [repeat split; try tauto; apply Hdom; exact Hlive|].
    rewrite Hsettled in Hstage |- *. destruct Hstage as [Hoff Hnone].
    split; [|exact Hnone]. destruct Hload; congruence.
  - destruct Hstep as [-> | (r & v & ->)]; split; assumption.
Qed.

Lemma catch_block_consistent (c : Component) :
  consistent c -> glassesMesh_state c = None -> console_error c = [] ->
  consistent (catch_block c).
Proof.
  intros (Hint & Hglasses & _) Hg He.
  unfold consistent, catch_block. cbn. rewrite Hg in Hglasses |- *. rewrite He.
  split; [rewrite Hint, Hg; reflexivity|]. split; [exact Hglasses|].
  split; [reflexivity|]. intros _. exists InitializationError. reflexivity.
Qed.

Lemma occur_consistent (c : Component) (e : Occurrence) :
  consistent c -> consistent (occur c e).
Proof.
  intros Hc.
  assert (forall a, (forall cl, a <> Effect cl) -> a <> Cleanup ->
                    consistent (on_page (fun s => step s a) c)) as Hpage
    by (intros a H1 H2; apply on_page_consistent; assumption).
  pose proof Hc as (Hint & Hglasses & Hstage).
  destruct e as [stream| | | |m| |o| | |i fe|i|r v]; unfold occur;
    destruct (loading c) eqn:Hl; try exact Hc;
    try (apply Hpage; [intros cl; discriminate|discriminate]);
    try (destruct Hstage as (Hm & Hg & He); apply catch_block_consistent; assumption).
  - (* getUserMedia fulfilled *)
    destruct Hstage as (Hm & Hg & He).
    unfold consistent. rewrite Hg in Hglasses.
    destruct (webcamRef_current (world (page c))); cbn; rewrite ?Hl, Hg;
      (split; [rewrite Hint, Hg; reflexivity|]); (split; [exact Hglasses|]); auto.
  - (* setBackend fulfilled *)
    destruct Hstage as (Hm & Hg & He).
    unfold consistent. cbn. rewrite Hg in Hglasses |- *.
    split; [rewrite Hint, Hg; reflexivity|]. auto.
  - (* load fulfilled *)
    destruct Hstage as (Hm & Hg & He). rewrite Hg in Hglasses.
    unfold threeSetup, setModel, rerun_effect. cbn.
    destruct (canvasRef_current c) as [canvas|];
      [destruct (webgl_available canvas)|].
    + unfold consistent. cbn. rewrite Hg. repeat split; eauto.
    + unfold consistent, catch_block. cbn. rewrite Hg, He.
      repeat split; eauto.
    + unfold consistent, catch_block. cbn. rewrite Hg, He.
      repeat split; eauto.
  - (* the glasses loaded *)
    destruct Hstage as (Hm & Hg & He & Hscene). rewrite Hg in Hglasses.
    unfold consistent, onLoad, setGlassesMesh, rerun_effect. cbn.
    rewrite lookup_insert_eq, Hglasses, He.
    destruct (three c) as [t|]; [|discriminate Hscene].
    cbn in Hscene |- *. injection Hscene as ->.
    repeat split; eauto. discriminate.
  - (* the glasses failed to load *)
    destruct Hstage as (Hm & Hg & He & Hscene). rewrite Hg in Hglasses.
    unfold consistent, onError. cbn. rewrite Hg, He.
    split; [rewrite Hint, Hg; reflexivity|]. repeat split; eauto.
Qed.

Lemma running_consistent (c : Component) : running c -> consistent c.
Proof.
  induction 1 as [r v canvas h|c e _ IH];
    [apply mount_consistent|apply occur_consistent, IH].
Qed.

(** X11. The detection model is never called before both the model and the
    glasses have loaded: while either is missing no detection call has ever
    been issued. *)
Theorem detection_waits_for_model_and_glasses (c : Component) :
  running c ->
  pending (page c) <> [] ->
  exists m g, model_state c = Some m /\ glassesMesh_state c = Some g.
Proof.
  intros Hrun Hp. destruct (running_consistent c Hrun) as (_ & Hglasses & _).
  destruct (glassesMesh_state c) as [g|]; [|contradiction].
  destruct Hglasses as (_ & [m Hm] & _). eauto.
Qed.

Lemma detection_waits_for_model_and_glasses_witness :
  let c := occur_all (mount (Some WebcamInstance) (mkVideo 4 800 800)
                            (Some (mkCanvas 800 800 true)) ∅)
             [GetUserMediaFulfilled CameraStream; SetBackendFulfilled;
              LoadFulfilled FaceMesh; GltfLoaded loaded_glasses; TimerFired] in
  exists m g, model_state c = Some m /\ glassesMesh_state c = Some g.
Proof.
  intros c. apply (detection_waits_for_model_and_glasses c).
  - unfold c, occur_all. cbn [foldl]. repeat apply running_occur. apply running_mount.
  - vm_compute. discriminate.
Defined.

(** Once [loadResources] has settled without glasses, nothing that can
    happen changes anything but the ref and the video. *)
Lemma idle_occur (c : Component) (e : Occurrence) :
  consistent c -> loading c = LoadSettled -> glassesMesh_state c = None ->
  occur c e = c \/ exists r v, occur c e = on_page (fun s => step s (Dom r v)) c.
Proof.
  intros (Hint & Hglasses & _) Hl Hg. rewrite Hg in Hglasses.
  assert (on_page (fun s => s) c = c) as Hid by (destruct c as [[] ]; reflexivity).
  destruct e as [stream| | | |m| |o| | |i fe|i|r v]; unfold occur; rewrite ?Hl; auto.
  - left. rewrite <- Hid at 2. unfold on_page. f_equal.
    apply (step_Tick_returned (page c) _ Hint).
    destruct (detectAndPositionGlasses_cases
                (closure_model (mkClosure (model_state c) (glassesMesh_state c)))
                (closure_glassesMesh (mkClosure (model_state c) (glassesMesh_state c)))
                (world (page c)))
      as [(r' & m' & g' & _ & _ & Hg' & _) | [_ Hrun]]; [|exact Hrun].
    cbn in Hg'. congruence.
  - left. rewrite <- Hid at 2. unfold on_page. f_equal.
    cbn. rewrite Hglasses. reflexivity.
  - left. rewrite <- Hid at 2. unfold on_page. f_equal.
    destruct (page c) as [w0 iv p]. cbn in Hglasses |- *. subst p. reflexivity.
  - right. eauto.
Qed.

(** X12. A failed initialisation leaves the application idle for good.
    Once [loadResources] has settled without glasses (the camera was
    refused, the backend or the model failed, the canvas was missing or the
    glasses file failed to load), whatever happens next no detection call is
    issued, no THREE object changes, and the model, the glasses, the error
    log and the cleared loading flag stay as they are. *)
Theorem failed_initialisation_stays_idle (c : Component) (l : list Occurrence) :
  running c ->
  loading c = LoadSettled ->
  glassesMesh_state c = None ->
  let c' := occur_all c l in
  pending (page c') = [] /\
  heap (world (page c')) = heap (world (page c)) /\
  isLoading (world (page c')) = false /\
  model_state c' = model_state c /\
  glassesMesh_state c' = None /\
  console_error c' = console_error c /\
  loading c' = LoadSettled.
Proof.
  intros Hrun. revert c Hrun. induction l as [|e l IH]; intros c Hrun Hl Hg c'.
  - pose proof (running_consistent c Hrun) as (_ & Hglasses & Hstage).
    rewrite Hg in Hglasses. rewrite Hl in Hstage. subst c'. cbn. tauto.
  - subst c'. change (occur_all c (e :: l)) with (occur_all (occur c e) l).
    assert (heap (world (page (occur c e))) = heap (world (page c)) /\
            model_state (occur c e) = model_state c /\
            glassesMesh_state (occur c e) = None /\
            console_error (occur c e) = console_error c /\
            loading (occur c e) = LoadSettled) as (Hh & Hm & Hg' & He & Hl').
    { destruct (idle_occur c e (running_consistent c Hrun) Hl Hg)
        as [-> | (r & v & ->)]; cbn; auto. }
    pose proof (IH (occur c e) (running_occur c e Hrun) Hl' Hg') as IH'.
    cbv zeta in IH'. rewrite Hh, Hm, He in IH'. exact IH'.
Qed.

Lemma failed_initialisation_stays_idle_witness :
  let c := occur (mount (Some WebcamInstance) (mkVideo 4 800 800)
                        (Some (mkCanvas 800 800 true)) {[ 0%nat := loaded_glasses ]})
                 GetUserMediaRejected in
  let c' := occur_all c [SetBackendFulfilled; LoadFulfilled FaceMesh;
                         GltfLoaded loaded_glasses; TimerFired;
                         EstimateFacesFulfilled 0 [scenario_face]] in
  pending (page c') = [] /\
  heap (world (page c')) = heap (world (page c)) /\
  isLoading (world (page c')) = false /\
  model_state c' = model_state c /\
  glassesMesh_state c' = None /\
  console_error c' = console_error c /\
  loading c' = LoadSettled.
Proof.
  intros c.
  apply (failed_initialisation_stays_idle c).
  - apply running_occur, running_mount.
  - reflexivity.
  - reflexivity.
Defined.

(** X13. The three resources load in sequence, not independently: as long
    as [getUserMedia] has not fulfilled, the model is not set, three.js is
    not set up, the glasses are not loaded and no detection call is
    issued, whatever else completes. *)
Theorem nothing_loads_before_the_camera (r : option Webcam) (v : HTMLVideoElement)
    (canvas : option Canvas) (h : gmap loc THREE.Object3D) (l : list Occurrence) :
  Forall (fun e => forall stream, e <> GetUserMediaFulfilled stream) l ->
  let c := occur_all (mount r v canvas h) l in
  model_state c = None /\ glassesMesh_state c = None /\ three c = None /\
  pending (page c) = [] /\ heap (world (page c)) = h.
Proof.
  intros Hl.
  assert (forall c, running c ->
            model_state c = None /\ three c = None /\ heap (world (page c)) = h /\
            (loading c = AwaitGetUserMedia \/ loading c = LoadSettled) ->
            let c' := occur_all c l in
            model_state c' = None /\ glassesMesh_state c' = None /\ three c' = None /\
            pending (page c') = [] /\ heap (world (page c')) = h) as Hgen.
  { induction l as [|e l IH]; intros c Hrun (Hm & Ht & Hh & Hst) c'.
    - subst c'. cbn. destruct (running_consistent c Hrun) as (_ & Hglasses & _).
      destruct (glassesMesh_state c) as [g|].
      + destruct Hglasses as (_ & [m Hm'] & _). congruence.
      + auto.
    - apply Forall_cons in Hl as [He Hl]. subst c'.
      change (occur_all c (e :: l)) with (occur_all (occur c e) l).
      apply (IH Hl (occur c e) (running_occur c e Hrun)).
      assert (glassesMesh_state c = None) as Hg.
      { destruct (running_consistent c Hrun) as (_ & Hglasses & _).
        destruct (glassesMesh_state c) as [g|]; [|reflexivity].
        destruct Hglasses as (_ & [m Hm'] & _). congruence. }
      destruct Hst as [Hst|Hst].
      + destruct e as [stream| | | |m| |o| | |i fe|i|r' v']; unfold occur; rewrite ?Hst;
          try (cbn; auto; fail).
        * destruct (He stream eq_refl).
        * unfold on_page. cbn [model_state three page loading].
          rewrite step_Tick_world. auto.
        * destruct (running_consistent c Hrun) as (_ & Hglasses & _).
          rewrite Hg in Hglasses. cbn. rewrite Hglasses. cbn. auto.
      + destruct (idle_occur c e (running_consistent c Hrun) Hst Hg)
          as [-> | (r' & v' & ->)]; cbn; auto. }
  apply Hgen; [apply running_mount|cbn; auto].
Qed.

Lemma nothing_loads_before_the_camera_witness :
  let c := occur_all (mount (Some WebcamInstance) (mkVideo 4 800 800)
                            (Some (mkCanvas 800 800 true)) ∅)
             [SetBackendFulfilled; LoadFulfilled FaceMesh; TimerFired;
              GltfLoaded loaded_glasses; GetUserMediaRejected; LoadFulfilled FaceMesh] in
  model_state c = None /\ glassesMesh_state c = None /\ three c = None /\
  pending (page c) = [] /\ heap (world (page c)) = ∅.
Proof.
  apply (nothing_loads_before_the_camera (Some WebcamInstance) (mkVideo 4 800 800)
           (Some (mkCanvas 800 800 true)) ∅).
  repeat constructor; intros stream H; discriminate H.
Defined.

(** X14. The glasses reference is never dangling and never stale: once
    [glassesMesh] is set, the object it refers to exists, it is the one
    child of the scene, the model is set, the live interval holds exactly
    the current [model] and [glassesMesh], and every detection call in
    flight will write that same object. *)
Theorem glasses_reference_is_live (c : Component) (g : loc) :
  running c ->
  glassesMesh_state c = Some g ->
  is_Some (heap (world (page c)) !! g) /\
  scene_children <$> three c = Some [g] /\
  is_Some (model_state c) /\
  interval (page c) = Some (mkClosure (model_state c) (Some g)) /\
  Forall (bound_to g) (pending (page c)).
Proof.
  intros Hrun Hg. destruct (running_consistent c Hrun) as (Hint & Hglasses & _).
  rewrite Hg in Hint, Hglasses. tauto.
Qed.

Lemma glasses_reference_is_live_witness :
  let c := occur_all (mount (Some WebcamInstance) (mkVideo 4 800 800)
                            (Some (mkCanvas 800 800 true)) ∅)
             [GetUserMediaFulfilled CameraStream; SetBackendFulfilled;
              LoadFulfilled FaceMesh; GltfLoaded loaded_glasses; TimerFired; TimerFired;
              EstimateFacesFulfilled 1 [scenario_face]] in
  is_Some (heap (world (page c)) !! 0%nat) /\
  scene_children <$> three c = Some [0%nat] /\
  is_Some (model_state c) /\
  interval (page c) = Some (mkClosure (model_state c) (Some 0%nat)) /\
  Forall (bound_to 0%nat) (pending (page c)).
Proof.
  intros c. apply (glasses_reference_is_live c 0%nat).
  - unfold c, occur_all. cbn [foldl]. repeat apply running_occur. apply running_mount.
  - vm_compute. reflexivity.
Defined.

(** X15. A failure is reported at most once, and a reported failure means
    the loading flag is cleared, [loadResources] is over and the glasses
    will never be set; when [loadResources] is over the loading flag is
    cleared in every case. *)
Theorem failure_is_reported_once (c : Component) :
  running c ->
  (length (console_error c) <= 1)%nat /\
  (console_error c <> [] ->
   isLoading (world (page c)) = false /\ glassesMesh_state c = None /\
   loading c = LoadSettled) /\
  (loading c = LoadSettled -> isLoading (world (page c)) = false).
Proof.
  intros Hrun. destruct (running_consistent c Hrun) as (_ & Hglasses & Hstage).
  destruct (glassesMesh_state c) as [g|].
  - destruct Hglasses as (_ & _ & _ & _ & -> & Hl). rewrite Hl in Hstage |- *.
    cbn. split; [lia|]. split; [congruence|]. tauto.
  - destruct (loading c).
    1-3: destruct Hstage as (_ & _ & ->); cbn; repeat split; (lia || congruence).
    + destruct Hstage as (_ & _ & -> & _); cbn; repeat split; (lia || congruence).
    + destruct Hstage as (Hoff & Herr). destruct (Herr eq_refl) as [r ->].
      cbn. repeat split; auto.
Qed.

Lemma failure_is_reported_once_witness :
  let c := occur_all (mount (Some WebcamInstance) (mkVideo 4 800 800) None ∅)
             [GetUserMediaFulfilled CameraStream; SetBackendFulfilled;
              LoadFulfilled FaceMesh; GltfFailed; LoadRejected] in
  (length (console_error c) <= 1)%nat /\
  (console_error c <> [] ->
   isLoading (world (page c)) = false /\ glassesMesh_state c = None /\
   loading c = LoadSettled) /\
  (loading c = LoadSettled -> isLoading (world (page c)) = false).
Proof.
  intros c. apply (failure_is_reported_once c).
  unfold c, occur_all. cbn [foldl]. repeat apply running_occur. apply running_mount.
Defined.

Lemma occur_all_app (c : Component) (l1 l2 : list Occurrence) :
  occur_all c (l1 ++ l2) = occur_all (occur_all c l1) l2.
Proof. apply foldl_app. Qed.

Lemma load_sequence (r : Webcam) (v : HTMLVideoElement) (canvas : Canvas)
    (h : gmap loc THREE.Object3D) (stream : MediaStream) (m : Model)
    (gltf_scene : THREE.Object3D) :
  webgl_available canvas = true ->
  let c := occur_all (mount (Some r) v (Some canvas) h)
             [GetUserMediaFulfilled stream; SetBackendFulfilled; LoadFulfilled m;
              GltfLoaded gltf_scene] in
  page c = mkPage (mkWorld (Some r) v false
                     (<[fresh (dom h) :=
                        THREE.with_scale (fun s => THREE.set s 0.05 0.05 0.05) gltf_scene]> h))
                     (Some (mkClosure (Some m) (Some (fresh (dom h))))) [] /\
  glassesMesh_state c = Some (fresh (dom h)).
Proof.
  destruct canvas as [width height gl]. cbn [webgl_available].
  intros ->. split; reflexivity.
Qed.

(** Resolving a suspended cycle that is bound to [g]. *)
Lemma step_Resolve_bound (s : Page) (i : nat) (g : loc) (faceEstimates : list Face) :
  pending s !! i = Some (Some (onFaceEstimates g)) ->
  step s (Resolve i faceEstimates) =
  mkPage (world_after (run (onFaceEstimates g faceEstimates) (world s)))
         (interval s) (<[i := None]> (pending s)).
Proof.
  intros Hi. unfold step. rewrite Hi. cbv zeta.
  rewrite onFaceEstimates_settles, app_nil_r. reflexivity.
Qed.

Lemma first_cycle (s : Page) (r : Webcam) (m : Model) (g : loc) (faceEstimates : list Face) :
  interval s = Some (mkClosure (Some m) (Some g)) ->
  pending s = [] ->
  webcamRef_current (world s) = Some r ->
  readyState (video (world s)) = 4%Z ->
  step (step s Tick) (Resolve 0 faceEstimates) =
  mkPage (world_after (run (onFaceEstimates g faceEstimates) (world s)))
         (interval s) [None].
Proof.
  intros Hint Hp Hr H4.
  rewrite (step_Tick_ready s _ r m g Hint eq_refl eq_refl Hr H4), Hp.
  apply (step_Resolve_bound (mkPage (world s) (interval s) [Some (onFaceEstimates g)])
           0 g faceEstimates eq_refl).
Qed.

Lemma cycle_on_component (c : Component) (r : Webcam) (v : HTMLVideoElement) (b : bool)
    (hp : gmap loc THREE.Object3D) (m : Model) (g : loc) (o : THREE.Object3D)
    (face : Face) (rest : list Face) (le re nt ec : Keypoint) :
  page c = mkPage (mkWorld (Some r) v b hp) (Some (mkClosure (Some m) (Some g))) [] ->
  hp !! g = Some o ->
  readyState v = 4%Z ->
  scaledMesh face !! 130%nat = Some le ->
  scaledMesh face !! 359%nat = Some re ->
  scaledMesh face !! 70%nat = Some nt ->
  scaledMesh face !! 168%nat = Some ec ->
  let c' := occur (occur c TimerFired) (EstimateFacesFulfilled 0 (face :: rest)) in
  glassesMesh_state c' = glassesMesh_state c /\
  page c' =
    mkPage (mkWorld (Some r) v false
       (<[g := THREE.mkObject3D
           (THREE.mkVector3
              ((k0 ec - videoWidth v / 2) * 0.01 + 0.0)
              ((k1 ec - videoHeight v / 2) * - (0.01) + -0.1)
              1)
           (let s := Math.sqrt (Math.pow (k0 re - k0 le) 2 +
                                Math.pow (k1 re - k1 le) 2) / 250 in
            THREE.mkVector3 s s s)
           (THREE.mkVector3
              (Math.atan2 (k1 ec - k1 nt) (k0 ec - k0 nt))
              (- Math.atan2 (k1 re - k1 le) (k0 re - k0 le))
              (- Math.atan2 (k1 re - k1 le) (k0 re - k0 le)))]> hp))
      (Some (mkClosure (Some m) (Some g))) [None].
Proof.
  intros Hp Hg H4 Hle Hre Hnt Hec c'. subst c'.
  unfold occur, on_page. cbn [glassesMesh_state page]. split; [reflexivity|].
  rewrite (first_cycle (page c) r m g (face :: rest));
    try (rewrite Hp; reflexivity); [|rewrite Hp; exact H4].
  rewrite Hp. cbn [world interval pending].
  rewrite (onFaceEstimates_applies (mkWorld (Some r) v b hp) g o face rest le re nt ec
             Hg Hle Hre Hnt Hec).
  reflexivity.
Qed.

(** X16. The whole path: when the camera, the backend, the model and the
    glasses file all succeed, the ref is set and the video has
    [readyState] 4, the first tick followed by a detection result with its
    four landmarks leaves a new object in the heap, referred to by
    [glassesMesh], with the pose of the formulas; nothing of the 0.05 scale
    set by the loader callback is left. *)
Theorem successful_start_applies_pose (r : Webcam) (v : HTMLVideoElement) (canvas : Canvas)
    (h : gmap loc THREE.Object3D) (stream : MediaStream) (m : Model)
    (gltf_scene : THREE.Object3D) (face : Face) (rest : list Face)
    (le re nt ec : Keypoint) :
  webgl_available canvas = true ->
  readyState v = 4%Z ->
  scaledMesh face !! 130%nat = Some le ->
  scaledMesh face !! 359%nat = Some re ->
  scaledMesh face !! 70%nat = Some nt ->
  scaledMesh face !! 168%nat = Some ec ->
  let c := occur_all (mount (Some r) v (Some canvas) h)
             [GetUserMediaFulfilled stream; SetBackendFulfilled; LoadFulfilled m;
              GltfLoaded gltf_scene; TimerFired; EstimateFacesFulfilled 0 (face :: rest)] in
  exists g,
    h !! g = None /\
    glassesMesh_state c = Some g /\
    isLoading (world (page c)) = false /\
    pending (page c) = [None] /\
    heap (world (page c)) =
      <[g := THREE.mkObject3D
           (THREE.mkVector3
              ((k0 ec - videoWidth v / 2) * 0.01 + 0.0)
              ((k1 ec - videoHeight v / 2) * - (0.01) + -0.1)
              1)
           (let s := Math.sqrt (Math.pow (k0 re - k0 le) 2 +
                                Math.pow (k1 re - k1 le) 2) / 250 in
            THREE.mkVector3 s s s)
           (THREE.mkVector3
              (Math.atan2 (k1 ec - k1 nt) (k0 ec - k0 nt))
              (- Math.atan2 (k1 re - k1 le) (k0 re - k0 le))
              (- Math.atan2 (k1 re - k1 le) (k0 re - k0 le)))]> h.
Proof.
  intros Hgl H4 Hle Hre Hnt Hec c.
  exists (fresh (dom h)).
  split; [apply not_elem_of_dom, is_fresh|].
  destruct (load_sequence r v canvas h stream m gltf_scene Hgl) as [Hp4 Hg4].
  cbv zeta in Hp4, Hg4. subst c.
  change [GetUserMediaFulfilled stream; SetBackendFulfilled; LoadFulfilled m;
          GltfLoaded gltf_scene; TimerFired; EstimateFacesFulfilled 0 (face :: rest)]
    with ([GetUserMediaFulfilled stream; SetBackendFulfilled; LoadFulfilled m;
           GltfLoaded gltf_scene] ++ [TimerFired; EstimateFacesFulfilled 0 (face :: rest)]).
  rewrite occur_all_app.
  set (c4 := occur_all _ [GetUserMediaFulfilled stream; SetBackendFulfilled;
                          LoadFulfilled m; GltfLoaded gltf_scene]) in *.
  clearbody c4. unfold occur_all. cbn [foldl].
  destruct (cycle_on_component c4 r v false _ m (fresh (dom h)) _ face rest le re nt ec
              Hp4 (lookup_insert_eq _ _ _) H4 Hle Hre Hnt Hec) as [Hg' Hp'].
  rewrite Hg', Hp', Hg4. cbn [world isLoading heap pending].
  rewrite insert_insert_eq. repeat split; reflexivity.
Qed.
Lemma successful_start_applies_pose_witness :
  let c := occur_all (mount (Some WebcamInstance) (mkVideo 4 800 800)
                            (Some (mkCanvas 800 800 true)) ∅)
             [GetUserMediaFulfilled CameraStream; SetBackendFulfilled;
              LoadFulfilled FaceMesh; GltfLoaded loaded_glasses; TimerFired;
              EstimateFacesFulfilled 0 [scenario_face]] in
  exists g,
    (∅ : gmap loc THREE.Object3D) !! g = None /\
    glassesMesh_state c = Some g /\
    isLoading (world (page c)) = false /\
    pending (page c) = [None] /\
    heap (world (page c)) =
      <[g := THREE.mkObject3D
           (THREE.mkVector3 ((200 - 800 / 2) * 0.01 + 0.0)
                            ((200 - 800 / 2) * - (0.01) + -0.1) 1)
           (let s := Math.sqrt (Math.pow (300 - 100) 2 + Math.pow (200 - 200) 2) / 250 in
            THREE.mkVector3 s s s)
           (THREE.mkVector3 (Math.atan2 (200 - 260) (200 - 200))
                            (- Math.atan2 (200 - 200) (300 - 100))
                            (- Math.atan2 (200 - 200) (300 - 100)))]> ∅.
Proof.
  exact (successful_start_applies_pose WebcamInstance (mkVideo 4 800 800)
           (mkCanvas 800 800 true) ∅ CameraStream FaceMesh loaded_glasses scenario_face []
           (mkKeypoint 100 200 0) (mkKeypoint 300 200 0)
           (mkKeypoint 200 260 0) (mkKeypoint 200 200 0)
           eq_refl eq_refl eq_refl eq_refl eq_refl eq_refl).
Defined.

Lemma step_Dom (s : Page) (r : option Webcam) (v : HTMLVideoElement) :
  step s (Dom r v) =
  mkPage (mkWorld r v (isLoading (world s)) (heap (world s))) (interval s) (pending s).
Proof. reflexivity. Qed.

(** X17. The frame size is read when the detection resolves, not when it
    was requested, and the readiness checks are not repeated: if the video
    and the ref change while a call is in flight (even to a null ref or a
    video that is no longer ready), the result is still applied, with the
    position computed from the new [videoWidth] and [videoHeight]. *)
Theorem resolution_reads_current_video (s : Page) (c : Closure) (r : Webcam) (m : Model)
    (g : loc) (o : THREE.Object3D) (r' : option Webcam) (v' : HTMLVideoElement)
    (face : Face) (rest : list Face) (leftEye rightEye noseTip eyeCenter : Keypoint) :
  interval s = Some c ->
  closure_model c = Some m ->
  closure_glassesMesh c = Some g ->
  webcamRef_current (world s) = Some r ->
  readyState (video (world s)) = 4%Z ->
  heap (world s) !! g = Some o ->
  scaledMesh face !! 130%nat = Some leftEye ->
  scaledMesh face !! 359%nat = Some rightEye ->
  scaledMesh face !! 70%nat = Some noseTip ->
  scaledMesh face !! 168%nat = Some eyeCenter ->
  let s' := exec s [Tick; Dom r' v'; Resolve (length (pending s)) (face :: rest)] in
  exists o',
    heap (world s') !! g = Some o' /\
    THREE.x (THREE.position o') = (k0 eyeCenter - videoWidth v' / 2) * 0.01 /\
    THREE.y (THREE.position o') = - ((k1 eyeCenter - videoHeight v' / 2) * 0.01) - 0.1.
Proof.
  intros Hc Hm Hg Hr H4 Ho Hle Hre Hnt Hec s'. subst s'.
  unfold exec. cbn [foldl].
  rewrite (step_Tick_ready s c r m g Hc Hm Hg Hr H4).
  rewrite step_Dom. cbn [world interval pending isLoading heap].
  rewrite (step_Resolve_bound _ (length (pending s)) g (face :: rest))
    by (cbn [pending]; apply list_lookup_middle; reflexivity).
  cbn [world].
  rewrite (onFaceEstimates_applies (mkWorld r' v' (isLoading (world s)) (heap (world s)))
             g o face rest leftEye rightEye noseTip eyeCenter Ho Hle Hre Hnt Hec).
  cbn [world_after heap video videoWidth videoHeight]. rewrite lookup_insert_eq.
  eexists. split; [reflexivity|]. cbn. split; lra.
Qed.

Lemma resolution_reads_current_video_witness :
  let s := exec (mounted scenario_world) [Effect ready] in
  let s' := exec s [Tick; Dom None (mkVideo 0 1920 1080);
                    Resolve (length (pending s)) [scenario_face]] in
  exists o',
    heap (world s') !! 0%nat = Some o' /\
    THREE.x (THREE.position o') = (200 - 1920 / 2) * 0.01 /\
    THREE.y (THREE.position o') = - ((200 - 1080 / 2) * 0.01) - 0.1.
Proof.
  intros s.
  exact (resolution_reads_current_video s ready WebcamInstance FaceMesh 0%nat
           loaded_glasses None (mkVideo 0 1920 1080) scenario_face []
           (mkKeypoint 100 200 0) (mkKeypoint 300 200 0)
           (mkKeypoint 200 260 0) (mkKeypoint 200 200 0)
           eq_refl eq_refl eq_refl eq_refl eq_refl eq_refl
           eq_refl eq_refl eq_refl eq_refl).
Defined.
